(** * notion-neetcode-mcq: the question store, the synthesizer and the
      Telegram answer webhook

    A shallow embedding of [src/db.ts] (the SQLite store), of the batch
    pipeline (schema, [generateMcqs], [sendToTelegram], [saveToDb]) and of
    [src/bot.ts] (the webhook), followed by the properties of the
    specification that concern them.

    Conventions of the embedding.
    - A JavaScript string is a [string]: a sequence of 8-bit code units, the
      Latin-1 range of UTF-16.  Every literal of the modelled code paths that
      matters here (["answer:"], [":"], the labels ['A'], ['B'], ...) is in
      that range.
    - A JavaScript number that holds an integer is a [Z].
    - A value that may be [undefined] is an [option].
    - A function that may throw returns a [Result]; code that reads or writes
      the database file, the console or the network is a state transformer
      [M S A] over the state [S] it touches. *)

From Stdlib Require Import ZArith NArith Lia Bool Ascii String List.
From stdpp Require Import base option list strings gmap.

Local Open Scope string_scope.
Local Open Scope list_scope.

(* ===================================================================== *)
(** ** Exceptions and the state-and-exception monad *)
(* ===================================================================== *)

(** What a [throw] (or a rejected promise) carries. *)
Inductive Exn : Type :=
| JsError (message : string)        (* new Error(message) *)
| TypeError (message : string)      (* property access on undefined *)
| SqliteError (code : string)       (* thrown by better-sqlite3 *)
| FetchError.                       (* fetch() rejected: network failure *)

Inductive Result (A : Type) : Type :=
| Ok (a : A)
| Throw (e : Exn).
Arguments Ok {A} a.
Arguments Throw {A} e.

Definition M (S A : Type) : Type := S -> Result A * S.

Definition ret {S A} (a : A) : M S A := fun s => (Ok a, s).
Definition throw {S A} (e : Exn) : M S A := fun s => (Throw e, s).
Definition bind {S A B} (m : M S A) (k : A -> M S B) : M S B :=
  fun s => match m s with
           | (Ok a, s') => k a s'
           | (Throw e, s') => (Throw e, s')
           end.
Definition get {S} : M S S := fun s => (Ok s, s).
Definition put {S} (s : S) : M S unit := fun _ => (Ok tt, s).

(** [try { body } catch (error) { handler(error) }]. *)
Definition try_catch {S A} (body : M S A) (handler : Exn -> M S A) : M S A :=
  fun s => match body s with
           | (Ok a, s') => (Ok a, s')
           | (Throw e, s') => handler e s'
           end.

Declare Scope js_scope.
Delimit Scope js_scope with js.
Notation "'let*' x := m 'in' k" := (bind m (fun x => k))
  (at level 10, x pattern, m at level 100, k at level 200) : js_scope.
Notation "m ;;; k" := (bind m (fun _ => k))
  (at level 100, k at level 200, right associativity) : js_scope.

(* ===================================================================== *)
(** ** JavaScript strings *)
(* ===================================================================== *)

Module JsString.

(** [String.fromCharCode(n)]: the code unit [ToUint16(n)].  The 8-bit
    characters of the model hold it exactly when it is below 256. *)
Definition fromCharCode (n : Z) : string :=
  String (ascii_of_N (Z.to_N (n mod 65536))) EmptyString.

(** The code units with a lowercase counterpart in Unicode's simple case
    mapping, in the Latin-1 range: A..Z, and the accented capitals
    U+00C0..U+00DE except the multiplication sign U+00D7. *)
Definition is_upper_code (n : N) : bool :=
  ((65 <=? n)%N && (n <=? 90)%N)
  || ((192 <=? n)%N && (n <=? 222)%N && negb (n =? 215)%N).

Definition lower_unit (c : ascii) : ascii :=
  if is_upper_code (N_of_ascii c) then ascii_of_N (N_of_ascii c + 32) else c.

(** [s.toLowerCase()]. *)
Fixpoint toLowerCase (s : string) : string :=
  match s with
  | EmptyString => EmptyString
  | String c s' => String (lower_unit c) (toLowerCase s')
  end.

(** [s.split(sep)] for a one-character separator: the segments between
    the occurrences of [sep]; never empty (["".split(":")] is [[""]]). *)
Fixpoint split (sep : ascii) (s : string) : list string :=
  match s with
  | EmptyString => [EmptyString]
  | String c s' =>
      if Ascii.eqb c sep then EmptyString :: split sep s'
      else match split sep s' with
           | seg :: rest => String c seg :: rest
           | [] => [String c EmptyString]
           end
  end.

(** [s.includes(sep)] for a one-character [sep]. *)
Fixpoint includes (sep : ascii) (s : string) : bool :=
  match s with
  | EmptyString => false
  | String c s' => Ascii.eqb c sep || includes sep s'
  end.

(** [`${v}`] for a value that may be [undefined]. *)
Definition interpolate (v : option string) : string :=
  match v with
  | Some s => s
  | None => "undefined"
  end.

(** [!v] is false: neither [undefined] nor the empty string. *)
Definition truthy (v : option string) : bool :=
  match v with
  | Some s => negb (String.eqb s "")
  | None => false
  end.

End JsString.

(* ===================================================================== *)
(** ** src/db.ts *)
(* ===================================================================== *)

Module Question.
(** [interface Question]. *)
Record t : Type := mk {
  id : string;
  notion_page_id : string;
  leetcode_question : string;
  question : string;
  correct_answer : string;
  explanation : string;
}.
End Question.

Module QuestionRow.
(** A row of the [questions] table: the six inserted columns and
    [created_at DATETIME DEFAULT CURRENT_TIMESTAMP]. *)
Record t : Type := mk {
  fields : Question.t;
  created_at : Z;
}.
End QuestionRow.

Module QuestionAttempt.
(** A row of the [attempts] table ([interface QuestionAttempt]); the
    BOOLEAN column [correct] holds the number 1 or 0. *)
Record t : Type := mk {
  id : Z;
  question_id : string;
  selected_answer : string;
  correct : Z;
  answered_at : Z;
}.
End QuestionAttempt.

Module Db.

(** The database file behind [this.instance]: the [questions] table keyed
    by its TEXT PRIMARY KEY, the [attempts] table in rowid order, and the
    AUTOINCREMENT counter of [attempts] (the largest id handed out). *)
Record t : Type := mk {
  questions : gmap string QuestionRow.t;
  attempts : list QuestionAttempt.t;
  attempts_seq : Z;
}.

(** A file that [init] has just created: both tables, no rows. *)
Definition empty : t := mk ∅ [] 0.

(** [init]: CREATE TABLE IF NOT EXISTS leaves existing tables alone. *)
Definition init : M t unit := ret tt.

(** [insertQuestion(question)]; [now] is CURRENT_TIMESTAMP at the insert.
    The PRIMARY KEY makes SQLite refuse a second row with the same id. *)
Definition insertQuestion (now : Z) (question : Question.t) : M t unit :=
  (let* db := get in
   match questions db !! Question.id question with
   | Some _ => throw (SqliteError "SQLITE_CONSTRAINT_PRIMARYKEY")
   | None =>
       put (mk (<[Question.id question := QuestionRow.mk question now]>
                  (questions db))
               (attempts db) (attempts_seq db))
   end)%js.

(** [getQuestion(id)]: the row, or [undefined]. *)
Definition getQuestion (id : string) : M t (option QuestionRow.t) :=
  (let* db := get in ret (questions db !! id))%js.

(** INSERT INTO attempts (question_id, selected_answer, correct). *)
Definition insertAttempt (now : Z) (questionId selectedAnswer : string)
    (correct : Z) : M t unit :=
  (let* db := get in
   let rowid := (attempts_seq db + 1)%Z in
   put (mk (questions db)
           (attempts db ++
              [QuestionAttempt.mk rowid questionId selectedAnswer correct now])
           rowid))%js.

(** [Boolean(n)] for a number. *)
Definition Boolean (n : Z) : bool := negb (n =? 0)%Z.

(** [recordAttempt(questionId, selectedAnswer)], which returns
    [{ question: qn, correct: Boolean(correct) }]. *)
Definition recordAttempt (now : Z) (questionId selectedAnswer : string)
    : M t (QuestionRow.t * bool) :=
  (let* qn := getQuestion questionId in
   match qn with
   | None => throw (JsError "Question not found")
   | Some qn =>
       let correct :=
         if String.eqb
              (JsString.toLowerCase
                 (Question.correct_answer (QuestionRow.fields qn)))
              (JsString.toLowerCase selectedAnswer)
         then 1%Z else 0%Z in
       insertAttempt now questionId selectedAnswer correct ;;;
       ret (qn, Boolean correct)
   end)%js.

End Db.

(* ===================================================================== *)
(** ** The batch pipeline: schema, synthesis, delivery, persistence *)
(* ===================================================================== *)

#[local] Set Warnings "-register-all".
(** A parsed JSON document.  A number keeps its literal text: no schema
    below accepts one. *)
Inductive json : Type :=
| JNull
| JBoolean (b : bool)
| JNumber (literal : string)
| JString (s : string)
| JArray (items : list json)
| JObject (members : list (string * json)).
#[local] Set Warnings "register-all".

Module Zod.

(** [input[key]] on the object [JSON.parse] builds: of two members with the
    same key the later one is kept. *)
Fixpoint member (key : string) (members : list (string * json))
    : option json :=
  match members with
  | [] => None
  | (k, v) :: rest =>
      match member key rest with
      | Some v' => Some v'
      | None => if String.eqb k key then Some v else None
      end
  end.

(** [z.string()]. *)
Definition string (input : option json) : option String.string :=
  match input with
  | Some (JString s) => Some s
  | _ => None
  end.

(** [z.boolean()]. *)
Definition boolean (input : option json) : option bool :=
  match input with
  | Some (JBoolean b) => Some b
  | _ => None
  end.

(** [z.array(element)]: an array all of whose items parse; any length. *)
Definition array {A} (element : option json -> option A)
    (input : option json) : option (list A) :=
  match input with
  | Some (JArray items) => mapM (fun item => element (Some item)) items
  | _ => None
  end.

(** The members of the input of a [z.object(...)]; keys outside the shape
    are dropped. *)
Definition object (input : option json)
    : option (list (String.string * json)) :=
  match input with
  | Some (JObject members) => Some members
  | _ => None
  end.

End Zod.

Module Lodash.

(** [baseClamp(toInteger(n), 0, length)]. *)
Definition baseClamp (n : Z) (length : nat) : nat :=
  Z.to_nat (Z.min (Z.max n 0) (Z.of_nat length)).

(** One step of [shuffleSelf]: [value = array[rand]],
    [array[rand] = array[index]], [array[index] = value]. *)
Definition swap {A} (array : list A) (rand index : nat) : list A :=
  match array !! rand, array !! index with
  | Some value, Some other => <[index := value]> (<[rand := other]> array)
  | _, _ => array
  end.

(** [baseRandom(lower, upper)]: [lower] plus the floor of a random fraction
    of the [upper - lower + 1] values; [draw] is any natural number, of
    which the remainder is that floor. *)
Definition baseRandom (draw lower upper : nat) : nat :=
  lower + draw mod (upper - lower + 1).

(** The loop of [shuffleSelf] from [index] on, [steps] being
    [size - index]; [random k] is the draw made at index [k]. *)
Fixpoint shuffle_from {A} (random : nat -> nat) (steps index : nat)
    (array : list A) : list A :=
  match steps with
  | O => array
  | S steps' =>
      let lastIndex := (length array - 1)%nat in
      let rand := baseRandom (random index) index lastIndex in
      shuffle_from random steps' (S index) (swap array rand index)
  end.

(** [shuffleSelf(array, size)], which ends with [array.length = size]. *)
Definition shuffleSelf {A} (random : nat -> nat) (array : list A)
    (size : nat) : list A :=
  take size (shuffle_from random size 0 array).

(** [_.sampleSize(array, n)] for an array and a number [n]. *)
Definition sampleSize {A} (random : nat -> nat) (array : list A) (n : Z)
    : list A :=
  shuffleSelf random array (baseClamp n (length array)).

End Lodash.

Module FetchDb.

(** [interface LeetcodeQuestion]; [name] is
    [title?.[0]?.plain_text], which may be [undefined]. *)
Record LeetcodeQuestion : Type := {
  lq_id : string;
  name : option string;
  tags : string;
  difficulty : option string;
  recentlyAttempted : bool;
}.

(** An item of [options]. *)
Record McqOption : Type := {
  content : string;
  is_correct : bool;
}.

(** [z.infer<typeof McqQuestionSchema>]. *)
Record McqParsed : Type := {
  question : string;
  leetcode_description : string;
  options : list McqOption;
  explanation : string;
}.

(** [type McqQuestion]: the parsed object and an [id]. *)
Record McqQuestion : Type := {
  parsed : McqParsed;
  id : string;
}.

Definition McqOptionSchema (input : option json) : option McqOption :=
  members ← Zod.object input;
  content ← Zod.string (Zod.member "content" members);
  is_correct ← Zod.boolean (Zod.member "is_correct" members);
  Some {| content := content; is_correct := is_correct |}.

(** [McqQuestionSchema]: what [safeParse] returns on success. *)
Definition McqQuestionSchema (input : json) : option McqParsed :=
  members ← Zod.object (Some input);
  question ← Zod.string (Zod.member "question" members);
  leetcode_description ←
    Zod.string (Zod.member "leetcode_description" members);
  options ← Zod.array McqOptionSchema (Zod.member "options" members);
  explanation ← Zod.string (Zod.member "explanation" members);
  Some {| question := question;
          leetcode_description := leetcode_description;
          options := options;
          explanation := explanation |}.

(** The two collaborators of [generateMcqs].  [messages_parse k prompt] is
    the outcome of the [k]-th call of [client.messages.parse] with
    [zodOutputFormat(McqQuestionSchema)]: a rejection, or a message whose
    [parsed_output] is [null] or the value [McqQuestionSchema] produced
    from the JSON text of the reply.  [nanoid k] is the [k]-th identifier
    drawn. *)
Record Services : Type := {
  messages_parse : nat -> string -> Result (option McqParsed);
  nanoid : nat -> string;
}.

(** The calls made so far to each collaborator. *)
Record Calls : Type := {
  parse_calls : nat;
  nanoid_calls : nat;
}.

Definition prompt (q : LeetcodeQuestion) : string :=
  "Leetcode Question: " +:+ JsString.interpolate (name q)
  +:+ ". Tags: " +:+ tags q
  +:+ ". Generate a MCQ question with 4 options to test my understanding of the approach of the question.".

Definition call_messages_parse (sv : Services) (content : string)
    : M Calls (option McqParsed) :=
  fun c =>
    (messages_parse sv (parse_calls c) content,
     {| parse_calls := S (parse_calls c); nanoid_calls := nanoid_calls c |}).

Definition call_nanoid (sv : Services) : M Calls string :=
  fun c =>
    (Ok (nanoid sv (nanoid_calls c)),
     {| parse_calls := parse_calls c; nanoid_calls := S (nanoid_calls c) |}).

(** The [for] loop of [generateMcqs], [mcqs] being the array built so
    far. *)
Fixpoint generateMcqs_loop (sv : Services)
    (questions : list LeetcodeQuestion) (mcqs : list McqQuestion)
    : M Calls (list McqQuestion) :=
  match questions with
  | [] => ret mcqs
  | q :: rest =>
      (let* parsed_output := call_messages_parse sv (prompt q) in
       match parsed_output with
       | Some p =>
           let* id := call_nanoid sv in
           generateMcqs_loop sv rest (mcqs ++ [{| parsed := p; id := id |}])
       | None => generateMcqs_loop sv rest mcqs
       end)%js
  end.

Definition generateMcqs (sv : Services)
    (questions : list LeetcodeQuestion) : M Calls (list McqQuestion) :=
  generateMcqs_loop sv questions [].

(** *** sendToTelegram *)

Definition newline : string := String (ascii_of_nat 10) EmptyString.

(** An inline-keyboard button as [sendToTelegram] builds it. *)
Record Button : Type := {
  text : string;
  callbackData : string;
}.

(** The keyboard of one question: a row of one button per option. *)
Definition inlineKeyboard (mcq : McqQuestion) : list (list Button) :=
  imap (fun idx _ =>
          let optionLabel := JsString.fromCharCode (65 + Z.of_nat idx) in
          let option :=
            {| text := optionLabel;
               callbackData :=
                 "answer:" +:+ JsString.fromCharCode (65 + Z.of_nat idx)
                 +:+ ":" +:+ id mcq |} in
          [option])
       (options (parsed mcq)).

Definition originalQuestion (mcq : McqQuestion) : string :=
  "*Leetcode Question:*" +:+ newline
  +:+ leetcode_description (parsed mcq) +:+ newline +:+ newline.

Definition questionText (mcq : McqQuestion) : string :=
  "*Question:*" +:+ newline +:+ question (parsed mcq)
  +:+ newline +:+ newline +:+ "*Options:*" +:+ newline
  +:+ String.concat (newline +:+ newline)
        (imap (fun idx opt =>
                 JsString.fromCharCode (65 + Z.of_nat idx)
                 +:+ ". " +:+ content opt)
              (options (parsed mcq))).

(** The arguments of the calls of [sendTelegramMessage] that
    [sendToTelegram] makes, in order: the text and the keyboard, if any. *)
Fixpoint sendToTelegram (mcqs : list McqQuestion)
    : list (string * option (list (list Button))) :=
  match mcqs with
  | [] => []
  | mcq :: rest =>
      (originalQuestion mcq, None)
      :: (questionText mcq, Some (inlineKeyboard mcq))
      :: sendToTelegram rest
  end.

(** *** saveToDb *)

(** The values the operands of [??] range over. *)
Inductive JsValue : Type :=
| undefined
| null
| number (n : Z).

(** [l ?? r]. *)
Definition nullish_coalesce (l r : JsValue) : JsValue :=
  match l with
  | undefined | null => r
  | _ => l
  end.

(** [array.findIndex(p)]: the first index whose item satisfies [p], or -1;
    [i] is the index of the head. *)
Fixpoint findIndex_from {A} (p : A -> bool) (l : list A) (i : Z) : Z :=
  match l with
  | [] => (-1)%Z
  | x :: rest => if p x then i else findIndex_from p rest (i + 1)%Z
  end.

Definition findIndex {A} (p : A -> bool) (l : list A) : Z :=
  findIndex_from p l 0.

(** [String.fromCharCode(v)]: [undefined] converts to NaN and [null] to 0,
    both give the code unit 0. *)
Definition fromCharCode_value (v : JsValue) : string :=
  match v with
  | number n => JsString.fromCharCode n
  | undefined | null => JsString.fromCharCode 0
  end.

(** [65 + mcq.options.findIndex((opt) => opt.is_correct) ?? 26]: [+] binds
    tighter than [??]. *)
Definition correct_answer_code (mcq : McqQuestion) : JsValue :=
  nullish_coalesce
    (number (65 + findIndex is_correct (options (parsed mcq))))
    (number 26).

(** The object [saveToDb] hands to [insertQuestion];
    [DATABASE_ID] is [process.env.DATABASE_ID]. *)
Definition question_of_mcq (DATABASE_ID : option string)
    (mcq : McqQuestion) : Question.t :=
  {| Question.id := id mcq;
     Question.notion_page_id :=
       match DATABASE_ID with Some d => d | None => "" end;
     Question.leetcode_question := leetcode_description (parsed mcq);
     Question.question := question (parsed mcq);
     Question.correct_answer := fromCharCode_value (correct_answer_code mcq);
     Question.explanation := explanation (parsed mcq) |}.

Fixpoint saveToDb (DATABASE_ID : option string) (now : Z)
    (mcqs : list McqQuestion) : M Db.t unit :=
  match mcqs with
  | [] => ret tt
  | mcq :: rest =>
      (Db.insertQuestion now (question_of_mcq DATABASE_ID mcq) ;;;
       saveToDb DATABASE_ID now rest)%js
  end.

(** *** selectQuestions *)

(** [q.difficulty === "Medium" && q.recentlyAttempted]. *)
Definition eligible (q : LeetcodeQuestion) : bool :=
  match difficulty q with
  | Some d => String.eqb d "Medium"
  | None => false
  end
  && recentlyAttempted q.

(** [selectQuestions(questions, count)]; [count] is 1 when left out. *)
Definition selectQuestions (random : nat -> nat)
    (questions : list LeetcodeQuestion) (count : Z) : list LeetcodeQuestion :=
  Lodash.sampleSize random (filter (fun q => eligible q = true) questions)
    count.

(** *** The network side of the batch *)

(** The body of a sendMessage request. *)
Record TelegramRequest : Type := {
  chat_id : option string;
  request_text : string;
  reply_markup : option (list (list Button));
}.

(** The page [saveToNotion] asks Notion to create. *)
Record NotionPage : Type := {
  parent : option string;
  Name : string;
  Description : string;
  Options : string;
  Explanation : string;
}.

(** What the batch does not decide: the environment variables and whether
    a request resolves. *)
Record Env : Type := {
  TELEGRAM_BOT_TOKEN : option string;
  TELEGRAM_CHAT_ID : option string;
  NOTION_DATABASE_ID : option string;
  fetch_resolves : TelegramRequest -> bool;
  pages_create_resolves : NotionPage -> bool;
}.

(** What the batch does on the outside: the lines written with
    [console.error], the requests sent to Telegram, the pages asked of
    Notion. *)
Record Net : Type := {
  console : list (string * option Exn);
  telegram : list TelegramRequest;
  notion : list NotionPage;
}.

Definition console_error (line : string) (error : option Exn) : M Net unit :=
  fun w => (Ok tt, {| console := console w ++ [(line, error)];
                      telegram := telegram w;
                      notion := notion w |}).

Definition fetch (env : Env) (r : TelegramRequest) : M Net unit :=
  fun w => (if fetch_resolves env r then Ok tt else Throw FetchError,
            {| console := console w;
               telegram := telegram w ++ [r];
               notion := notion w |}).

(** [await notion.pages.create(page)]. *)
Definition pages_create (env : Env) (page : NotionPage) : M Net unit :=
  fun w => (if pages_create_resolves env page then Ok tt
            else Throw FetchError,
            {| console := console w;
               telegram := telegram w;
               notion := notion w ++ [page] |}).

(** [sendTelegramMessage(text, inlineKeyboard)]. *)
Definition sendTelegramMessage (env : Env) (message : string)
    (keyboard : option (list (list Button))) : M Net unit :=
  if negb (JsString.truthy (TELEGRAM_BOT_TOKEN env))
     || negb (JsString.truthy (TELEGRAM_CHAT_ID env))
  then console_error "Telegram bot token or chat ID is not defined." None
  else try_catch
         (fetch env {| chat_id := TELEGRAM_CHAT_ID env;
                       request_text := message;
                       reply_markup := keyboard |})
         (fun error =>
            console_error "Error sending message to Telegram:" (Some error)).

(** The request [sendTelegramMessage] makes for a text and a keyboard. *)
Definition request_of (env : Env)
    (call : string * option (list (list Button))) : TelegramRequest :=
  {| chat_id := TELEGRAM_CHAT_ID env;
     request_text := fst call;
     reply_markup := snd call |}.

(** The calls of [sendTelegramMessage] made in turn. *)
Fixpoint send_all (env : Env)
    (calls : list (string * option (list (list Button)))) : M Net unit :=
  match calls with
  | [] => ret tt
  | (message, keyboard) :: rest =>
      (sendTelegramMessage env message keyboard ;;; send_all env rest)%js
  end.

(** [sendToTelegram(mcqs)] on the network: the calls listed by
    [sendToTelegram], each awaited before the next. *)
Definition sendToTelegram_run (env : Env) (mcqs : list McqQuestion)
    : M Net unit :=
  send_all env (sendToTelegram mcqs).

(** The text of the Options property: one line per option, the correct
    ones marked. *)
Definition notion_options (mcq : McqParsed) : string :=
  String.concat newline
    (imap (fun idx opt =>
             JsString.fromCharCode (65 + Z.of_nat idx)
             +:+ ". " +:+ content opt +:+ " "
             +:+ (if is_correct opt then "(Correct)" else ""))
          (options mcq)).

Definition notion_page (env : Env) (mcq : McqParsed) : NotionPage :=
  {| parent := NOTION_DATABASE_ID env;
     Name := question mcq;
     Description := leetcode_description mcq;
     Options := notion_options mcq;
     Explanation := explanation mcq |}.

(** [saveToNotion(mcqs)]: each page in its own [try]. *)
Fixpoint saveToNotion (env : Env) (mcqs : list McqParsed) : M Net unit :=
  match mcqs with
  | [] => ret tt
  | mcq :: rest =>
      (try_catch (pages_create env (notion_page env mcq))
         (fun error => console_error "Error saving to Notion:" (Some error)) ;;;
       saveToNotion env rest)%js
  end.

End FetchDb.

(* ===================================================================== *)
(** ** The streak *)
(* ===================================================================== *)

Module Streak.

(** Modelled from the spec: "days are compared by local calendar date".
    The local calendar day (days since the epoch) of the instant [t], in
    seconds since the epoch, at [utc_offset] seconds east of UTC. *)
Definition local_day (utc_offset t : Z) : Z := ((t + utc_offset) / 86400)%Z.

(** Modelled from the spec: an Attempt with [isCorrect = true] answered on
    the local day [day]. *)
Definition correct_on (utc_offset day : Z) (a : QuestionAttempt.t) : bool :=
  (QuestionAttempt.correct a =? 1)%Z
  && (local_day utc_offset (QuestionAttempt.answered_at a) =? day)%Z.

(** Modelled from the spec: "at least one Attempt with isCorrect = true
    exists" for the day. *)
Definition has_correct_on (utc_offset day : Z)
    (attempts : list QuestionAttempt.t) : bool :=
  existsb (correct_on utc_offset day) attempts.

(** Modelled from the spec: walk backward from [day], one day per step,
    counting the days with a correct Attempt and stopping at the first day
    without one; at most [fuel] days are visited. *)
Fixpoint walk_back (fuel : nat) (utc_offset day : Z)
    (attempts : list QuestionAttempt.t) : Z :=
  match fuel with
  | O => 0%Z
  | S fuel' =>
      if has_correct_on utc_offset day attempts
      then (1 + walk_back fuel' utc_offset (day - 1) attempts)%Z
      else 0%Z
  end.

(** Modelled from the spec: [Db.getStreak], which [handleAnswer] calls, is
    missing from the sources ([src/db.ts] stops at [recordAttempt]).  This
    is section 4.5: "the number of consecutive calendar days, walking
    backward from asOf, for which at least one Attempt with
    isCorrect = true exists, stopping at the first day with zero correct
    attempts", days being local calendar dates, computed from the Attempt
    history on every call.  A run of days with a correct Attempt is never
    longer than the history, which bounds the walk. *)
Definition getCurrentStreak (utc_offset asOf : Z) : M Db.t Z :=
  (let* db := get in
   ret (walk_back (length (Db.attempts db)) utc_offset
          (local_day utc_offset asOf) (Db.attempts db)))%js.

End Streak.

(* ===================================================================== *)
(** ** src/bot.ts *)
(* ===================================================================== *)

Module Bot.

(** [callback.message], as far as the handler reads it. *)
Record Message : Type := {
  chat_id : Z;
  message_id : Z;
  message_text : option string;
}.

(** [req.body.callback_query]; Telegram sends [data] and [message] only
    with some kinds of callback, and the handler takes the body as
    [any]. *)
Record CallbackQuery : Type := {
  id : string;
  data : option string;
  message : option Message;
}.

(** The three texts [handleAnswer] sends, by their interpolated values:
    the congratulation with [currentStreak], the correction with
    [question.question], [answer], [question.correct_answer] and
    [question.explanation], and "An error occurred while recording your
    answer. Please try again.". *)
Inductive Reply : Type :=
| CorrectReply (currentStreak : Z)
| IncorrectReply (question : string) (answer : option string)
    (correct_answer explanation : string)
| ErrorReply.

(** The body of a request to the Telegram Bot API. *)
Inductive Request : Type :=
| SendMessage (chat : option string) (text : Reply)
| AnswerCallbackQuery (callback_query_id : string)
| EditMessageText (chat message : Z) (text : string).

(** What the handler does not decide: the environment variables, whether
    a [fetch] resolves (it rejects on a network failure only), whether the
    database file opens, CURRENT_TIMESTAMP, the local time zone. *)
Record Env : Type := {
  BOT_TOKEN : option string;
  CHAT_ID : option string;
  fetch_resolves : Request -> bool;
  database_opens : bool;
  now : Z;
  utc_offset : Z;
}.

(** What the handler touches: the database file, the lines written with
    [console.error] (text and error object), the requests issued. *)
Record World : Type := {
  file : Db.t;
  console : list (string * option Exn);
  requests : list Request;
}.

Definition console_error (text : string) (error : option Exn)
    : M World unit :=
  fun w => (Ok tt, {| file := file w;
                      console := console w ++ [(text, error)];
                      requests := requests w |}).

(** [await fetch(url, { method: "POST", body })]. *)
Definition fetch (env : Env) (r : Request) : M World unit :=
  fun w => (if fetch_resolves env r then Ok tt else Throw FetchError,
            {| file := file w;
               console := console w;
               requests := requests w ++ [r] |}).

(** A method of [Db] run on the database file. *)
Definition on_db {A} (m : M Db.t A) : M World A :=
  fun w => let '(r, db) := m (file w) in
           (r, {| file := db; console := console w;
                  requests := requests w |}).

(** [new Db()]: opens the file and runs [init]. *)
Definition new_Db (env : Env) : M World unit :=
  if database_opens env then on_db Db.init
  else throw (SqliteError "SQLITE_CANTOPEN").

Definition sendTelegramMessage (env : Env) (text : Reply) : M World unit :=
  if negb (JsString.truthy (BOT_TOKEN env))
     || negb (JsString.truthy (CHAT_ID env))
  then console_error "Telegram bot token or chat ID is not defined." None
  else try_catch (fetch env (SendMessage (CHAT_ID env) text))
         (fun error =>
            console_error "Error sending message to Telegram:" (Some error)).

(** [db.recordAttempt(questionId, answer)] with arguments that may be
    [undefined].  better-sqlite3 binds [undefined] as NULL, and
    [id = NULL] selects no row; [undefined.toLowerCase()] is a
    TypeError. *)
Definition recordAttempt_any (now : Z) (questionId answer : option string)
    : M Db.t (QuestionRow.t * bool) :=
  match questionId, answer with
  | Some questionId, Some answer => Db.recordAttempt now questionId answer
  | Some questionId, None =>
      (let* qn := Db.getQuestion questionId in
       match qn with
       | None => throw (JsError "Question not found")
       | Some _ =>
           throw (TypeError "Cannot read properties of undefined (reading 'toLowerCase')")
       end)%js
  | None, _ => throw (JsError "Question not found")
  end.

(** [handleAnswer].  The first [sendTelegramMessage] is not awaited; it
    never rejects, so only the moment its request completes is left
    open. *)
Definition handleAnswer (env : Env) (answer questionId : option string)
    (callback : CallbackQuery) : M World unit :=
  (new_Db env ;;;
   try_catch
     (let* (question, isCorrect) :=
        on_db (recordAttempt_any (now env) questionId answer) in
      let* message :=
        if isCorrect : bool
        then (let* currentStreak :=
                on_db (Streak.getCurrentStreak (utc_offset env) (now env)) in
              ret (CorrectReply currentStreak))
        else ret (IncorrectReply
                    (Question.question (QuestionRow.fields question))
                    answer
                    (Question.correct_answer (QuestionRow.fields question))
                    (Question.explanation (QuestionRow.fields question))) in
      sendTelegramMessage env message)
     (fun error =>
        console_error "Error recording attempt:" (Some error) ;;;
        sendTelegramMessage env ErrorReply))%js.

Definition answerCallbackQuery (env : Env) (callbackId : string)
    : M World unit :=
  fetch env (AnswerCallbackQuery callbackId).

Definition removeInlineKeyboard (env : Env) (callback : CallbackQuery)
    (answer : option string) : M World unit :=
  match message callback with
  | None =>
      throw (TypeError "Cannot read properties of undefined (reading 'chat')")
  | Some m =>
      fetch env
        (EditMessageText (chat_id m) (message_id m)
           (JsString.interpolate (message_text m)
            +:+ FetchDb.newline +:+ FetchDb.newline
            +:+ "*You selected:*" +:+ FetchDb.newline
            +:+ JsString.interpolate answer))
  end.

(** [const [type, answer, questionId] = d.split(":")]: the second and
    third segments, [undefined] where there is none; the first segment
    and any segment after the third are not read. *)
Definition decode (d : string) : option string * option string :=
  let parts := JsString.split ":" d in
  (parts !! 1%nat, parts !! 2%nat).

(** The same on [callback.data], which may be missing. *)
Definition destructure (callback : CallbackQuery)
    : M World (option string * option string) :=
  match data callback with
  | None =>
      throw (TypeError "Cannot read properties of undefined (reading 'split')")
  | Some d => ret (decode d)
  end.

(** The handler of POST /telegram-webhook.  [Ok status] is the status
    sent with [res.sendStatus]; [Throw e] is the handler's promise
    rejected with no response sent. *)
Definition webhook (env : Env) (callback_query : option CallbackQuery)
    : M World Z :=
  match callback_query with
  | None => ret 200%Z
  | Some callback =>
      (let* (answer, questionId) := destructure callback in
       answerCallbackQuery env (id callback) ;;;
       removeInlineKeyboard env callback answer ;;;
       handleAnswer env answer questionId callback ;;;
       ret 200%Z)%js
  end.

End Bot.

(* ===================================================================== *)
(** ** Histories of the store *)
(* ===================================================================== *)

Module History.

(** A call of a method of [Db], with the time of the call. *)
Inductive Call : Type :=
| InsertQuestion (now : Z) (question : Question.t)
| GetQuestion (id : string)
| RecordAttempt (now : Z) (questionId selectedAnswer : string).

(** The database after the call, whether it returned or threw. *)
Definition after (db : Db.t) (c : Call) : Db.t :=
  match c with
  | InsertQuestion now question => snd (Db.insertQuestion now question db)
  | GetQuestion id => snd (Db.getQuestion id db)
  | RecordAttempt now questionId selectedAnswer =>
      snd (Db.recordAttempt now questionId selectedAnswer db)
  end.

(** The database after a sequence of calls. *)
Definition replay (db : Db.t) (calls : list Call) : Db.t :=
  fold_left after calls db.

(** The flag [recordAttempt] computes for an answer to a stored row. *)
Definition verdict (row : QuestionRow.t) (selectedAnswer : string) : Z :=
  if String.eqb
       (JsString.toLowerCase
          (Question.correct_answer (QuestionRow.fields row)))
       (JsString.toLowerCase selectedAnswer)
  then 1%Z else 0%Z.

(** An attempt that refers to a stored question, carries the verdict of
    its answer against that question, and has an id the counter has
    reached. *)
Definition attempt_sound (db : Db.t) (a : QuestionAttempt.t) : Prop :=
  (exists row,
      Db.questions db !! QuestionAttempt.question_id a = Some row
      /\ QuestionAttempt.correct a
         = verdict row (QuestionAttempt.selected_answer a))
  /\ (0 < QuestionAttempt.id a <= Db.attempts_seq db)%Z.

(** A consistent store: every row of [questions] is filed under its own
    id, every attempt is sound, and the ids of the attempts increase. *)
Definition consistent (db : Db.t) : Prop :=
  (forall id row,
      Db.questions db !! id = Some row ->
      Question.id (QuestionRow.fields row) = id)
  /\ Forall (attempt_sound db) (Db.attempts db)
  /\ (forall i j a b,
        (i < j)%nat ->
        Db.attempts db !! i = Some a -> Db.attempts db !! j = Some b ->
        (QuestionAttempt.id a < QuestionAttempt.id b)%Z)
  /\ (0 <= Db.attempts_seq db)%Z.

End History.

(* ===================================================================== *)
(** ** Notions of the specification *)
(* ===================================================================== *)

Module Spec.

(** [upper] is a capital letter and [lower] its small letter, 32 code
    units above. *)
Definition case_pair (upper lower : ascii) : Prop :=
  JsString.is_upper_code (N_of_ascii upper) = true
  /\ N_of_ascii lower = (N_of_ascii upper + 32)%N.

(** Two code units that are the same up to the case of a letter. *)
Definition same_letter (c d : ascii) : Prop :=
  c = d \/ case_pair c d \/ case_pair d c.

(** Case-insensitive equality of two strings: the same length, and at
    each position the same letter up to its case. *)
Inductive eq_ignore_case : string -> string -> Prop :=
| eq_ignore_case_nil : eq_ignore_case EmptyString EmptyString
| eq_ignore_case_cons c d s t :
    same_letter c d -> eq_ignore_case s t ->
    eq_ignore_case (String c s) (String d t).

(** A payload of the form [kind:selectedLabel:questionId] with no colon in
    [questionId] (section 6): three segments between colons. *)
Definition well_formed_payload (payload : string) : bool :=
  (length (JsString.split ":" payload) =? 3)%nat.

(** "Exactly one option has isCorrect = true". *)
Definition exactly_one_correct (options : list FetchDb.McqOption) : Prop :=
  length (filter (fun o => FetchDb.is_correct o = true) options) = 1%nat.

(** The JSON document that spells out an MCQ. *)
Definition option_json (o : FetchDb.McqOption) : json :=
  JObject [("content", JString (FetchDb.content o));
           ("is_correct", JBoolean (FetchDb.is_correct o))].

Definition mcq_json (m : FetchDb.McqParsed) : json :=
  JObject [("question", JString (FetchDb.question m));
           ("leetcode_description", JString (FetchDb.leetcode_description m));
           ("options", JArray (map option_json (FetchDb.options m)));
           ("explanation", JString (FetchDb.explanation m))].

(** The correct Attempts answered on the local day [day] or before, a
    measure of how far a walk backward from [day] can go. *)
Definition on_or_before (utc_offset day : Z) (a : QuestionAttempt.t)
    : bool :=
  (QuestionAttempt.correct a =? 1)%Z
  && (Streak.local_day utc_offset (QuestionAttempt.answered_at a) <=? day)%Z.

Definition correct_until (utc_offset day : Z)
    (attempts : list QuestionAttempt.t) : nat :=
  length (List.filter (on_or_before utc_offset day) attempts).

End Spec.

(* ===================================================================== *)
(** ** Concrete questions, stores and requests *)
(* ===================================================================== *)

Module Examples.

Definition question1 : Question.t :=
  {| Question.id := "Q1";
     Question.notion_page_id := "";
     Question.leetcode_question := "Two Sum";
     Question.question := "Which structure gives one pass?";
     Question.correct_answer := "B";
     Question.explanation := "A hash map finds the complement." |}.

Definition row1 : QuestionRow.t := QuestionRow.mk question1 1000.

(** A store holding [question1] and no attempt. *)
Definition db1 : Db.t := Db.mk {[ "Q1" := row1 ]} [] 0.

Definition mk_option (content : string) (is_correct : bool)
    : FetchDb.McqOption :=
  {| FetchDb.content := content; FetchDb.is_correct := is_correct |}.

Definition mk_mcq (options : list FetchDb.McqOption) : FetchDb.McqQuestion :=
  {| FetchDb.parsed :=
       {| FetchDb.question := "Which structure gives one pass?";
          FetchDb.leetcode_description := "Two Sum";
          FetchDb.options := options;
          FetchDb.explanation := "A hash map finds the complement." |};
     FetchDb.id := "Q1" |}.

(** Three questions that differ in their options only. *)
Definition mcq_a : FetchDb.McqQuestion :=
  mk_mcq [mk_option "sort" false; mk_option "hash map" true;
          mk_option "stack" false; mk_option "heap" false].

Definition mcq_b : FetchDb.McqQuestion :=
  mk_mcq [mk_option "stack" false; mk_option "hash map" true;
          mk_option "sort" false; mk_option "heap" false].

Definition mcq_c : FetchDb.McqQuestion :=
  mk_mcq [mk_option "sort" false; mk_option "hash map" true;
          mk_option "stack" true; mk_option "heap" false].

(** A reply of the generation service with three options, none of them
    marked correct. *)
Definition reply_three_options : json :=
  JObject
    [("question", JString "Which structure gives one pass?");
     ("leetcode_description", JString "Two Sum");
     ("options",
      JArray [JObject [("content", JString "sort");
                       ("is_correct", JBoolean false)];
              JObject [("content", JString "stack");
                       ("is_correct", JBoolean false)];
              JObject [("content", JString "heap");
                       ("is_correct", JBoolean false)]]);
     ("explanation", JString "A hash map finds the complement.")].

Definition services3 : FetchDb.Services :=
  {| FetchDb.messages_parse :=
       fun _ _ => Ok (FetchDb.McqQuestionSchema reply_three_options);
     FetchDb.nanoid := fun _ => "Q1" |}.

Definition two_sum : FetchDb.LeetcodeQuestion :=
  {| FetchDb.lq_id := "page-1";
     FetchDb.name := Some "Two Sum";
     FetchDb.tags := "Array, Hash Table";
     FetchDb.difficulty := Some "Medium";
     FetchDb.recentlyAttempted := true |}.

Definition no_calls : FetchDb.Calls :=
  {| FetchDb.parse_calls := 0; FetchDb.nanoid_calls := 0 |}.

(** A service whose every reply is the parsed object of [mcq_a]. *)
Definition services_a : FetchDb.Services :=
  {| FetchDb.messages_parse := fun _ _ => Ok (Some (FetchDb.parsed mcq_a));
     FetchDb.nanoid := fun _ => "Q1" |}.

(** An attempt answered at one o'clock UTC of the day [day]. *)
Definition attempt_on (rowid day correct : Z) : QuestionAttempt.t :=
  QuestionAttempt.mk rowid "Q1" "B" correct (day * 86400 + 3600).

(** [k] strokes. *)
Fixpoint strokes (k : nat) : string :=
  match k with
  | O => EmptyString
  | S k' => String "|" (strokes k')
  end.

(** The string "id-" followed by [k] strokes. *)
Definition tally (k : nat) : string := "id-" +:+ strokes k.

Definition mk_mcq_with_id (id : string) (options : list FetchDb.McqOption)
    : FetchDb.McqQuestion :=
  {| FetchDb.parsed := FetchDb.parsed (mk_mcq options); FetchDb.id := id |}.

(** A service whose k-th id is the tally of k, so that no two are equal. *)
Definition services_counting : FetchDb.Services :=
  {| FetchDb.messages_parse := fun _ _ => Ok (Some (FetchDb.parsed mcq_a));
     FetchDb.nanoid := tally |}.

(** A service whose second call rejects. *)
Definition services_second_fails : FetchDb.Services :=
  {| FetchDb.messages_parse :=
       fun k _ => if Nat.eqb k 1 then Throw FetchError
                  else Ok (Some (FetchDb.parsed mcq_a));
     FetchDb.nanoid := fun _ => "Q1" |}.

(** Correct answers on days 10 and 11, only a wrong one on day 12, a
    correct answer on day 13. *)
Definition db_gap : Db.t :=
  Db.mk {[ "Q1" := row1 ]}
    [attempt_on 1 10 1; attempt_on 2 11 1; attempt_on 3 12 0;
     attempt_on 4 13 1]
    4.

(** A configured bot whose every request to Telegram goes through. *)
Definition env_ok : Bot.Env :=
  {| Bot.BOT_TOKEN := Some "token";
     Bot.CHAT_ID := Some "42";
     Bot.fetch_resolves := fun _ => true;
     Bot.database_opens := true;
     Bot.now := 2000;
     Bot.utc_offset := 0 |}.

(** The same bot while Telegram cannot be reached. *)
Definition env_offline : Bot.Env :=
  {| Bot.BOT_TOKEN := Some "token";
     Bot.CHAT_ID := Some "42";
     Bot.fetch_resolves := fun _ => false;
     Bot.database_opens := true;
     Bot.now := 2000;
     Bot.utc_offset := 0 |}.

Definition message1 : Bot.Message :=
  {| Bot.chat_id := 42; Bot.message_id := 7;
     Bot.message_text := Some "*Question:*" |}.

(** A callback on [message1] with the payload [data]. *)
Definition callback_with (data : option string) : Bot.CallbackQuery :=
  {| Bot.id := "cb1"; Bot.data := data; Bot.message := Some message1 |}.

Definition world1 : Bot.World :=
  {| Bot.file := db1; Bot.console := []; Bot.requests := [] |}.

(** A callback with a payload and no [message]. *)
Definition callback_without_message : Bot.CallbackQuery :=
  {| Bot.id := "cb1"; Bot.data := Some "answer:B:Q1"; Bot.message := None |}.

End Examples.

(* ===================================================================== *)
(** ** Running the monad *)
(* ===================================================================== *)

Lemma bind_ok {S A B} (m : M S A) (k : A -> M S B) s a s' :
  m s = (Ok a, s') -> bind m k s = k a s'.
Proof. intros H. unfold bind. now rewrite H. Qed.

(* ===================================================================== *)
(** ** Strings *)
(* ===================================================================== *)

Section StringFacts.

Import JsString.

Lemma is_upper_code_spec n :
  is_upper_code n = true
  <-> ((65 <= n <= 90) \/ (192 <= n <= 222 /\ n <> 215))%N.
Proof.
  unfold is_upper_code.
  rewrite orb_true_iff, !andb_true_iff, negb_true_iff, !N.leb_le, N.eqb_neq.
  lia.
Qed.

Lemma code_of_lower_unit c :
  N_of_ascii (lower_unit c)
  = if is_upper_code (N_of_ascii c) then (N_of_ascii c + 32)%N
    else N_of_ascii c.
Proof.
  unfold lower_unit.
  destruct (is_upper_code (N_of_ascii c)) eqn:Hup; [|reflexivity].
  apply is_upper_code_spec in Hup.
  apply N_ascii_embedding. lia.
Qed.

Lemma code_inj c d : N_of_ascii c = N_of_ascii d -> c = d.
Proof.
  intros H. rewrite <- (ascii_N_embedding c), <- (ascii_N_embedding d).
  now rewrite H.
Qed.

Lemma lower_unit_same_letter c d :
  lower_unit c = lower_unit d <-> Spec.same_letter c d.
Proof.
  unfold Spec.same_letter, Spec.case_pair. split.
  - intros H. apply (f_equal N_of_ascii) in H.
    rewrite !code_of_lower_unit in H.
    destruct (is_upper_code (N_of_ascii c)) eqn:Hc,
             (is_upper_code (N_of_ascii d)) eqn:Hd.
    + left. apply code_inj. lia.
    + right; left. split; [reflexivity | lia].
    + right; right. split; [reflexivity | lia].
    + left. now apply code_inj.
  - intros [-> | [[Hup Hcode] | [Hup Hcode]]]; [reflexivity | |];
      apply code_inj; rewrite !code_of_lower_unit, Hup;
      pose proof Hup as Hup'; apply is_upper_code_spec in Hup';
      [ destruct (is_upper_code (N_of_ascii d)) eqn:Hd
      | destruct (is_upper_code (N_of_ascii c)) eqn:Hd ];
      try (apply is_upper_code_spec in Hd); lia.
Qed.

Lemma toLowerCase_eq_ignore_case s t :
  toLowerCase s = toLowerCase t <-> Spec.eq_ignore_case s t.
Proof.
  split.
  - revert t. induction s as [|c s IH]; intros [|d t] H;
      simpl in H; try discriminate.
    + constructor.
    + injection H as Hcd Hst. constructor.
      * now apply lower_unit_same_letter.
      * now apply IH.
  - induction 1 as [|c d s t Hcd _ IH]; simpl; [reflexivity|].
    apply lower_unit_same_letter in Hcd. now rewrite Hcd, IH.
Qed.

Lemma eq_ignore_case_sym s t :
  Spec.eq_ignore_case s t -> Spec.eq_ignore_case t s.
Proof.
  induction 1 as [|c d s t Hcd _ IH]; constructor; [|exact IH].
  unfold Spec.same_letter in *. intuition.
Qed.

End StringFacts.

(* ===================================================================== *)
(** ** The store *)
(* ===================================================================== *)

Section Store.

Import Db.

Lemma getQuestion_run id db :
  getQuestion id db = (Ok (questions db !! id), db).
Proof. reflexivity. Qed.

Lemma recordAttempt_unknown now questionId selectedAnswer db :
  questions db !! questionId = None ->
  recordAttempt now questionId selectedAnswer db
  = (Throw (JsError "Question not found"), db).
Proof.
  intros H. unfold recordAttempt.
  rewrite (bind_ok _ _ _ _ _ (getQuestion_run questionId db)), H.
  reflexivity.
Qed.

Lemma recordAttempt_known now questionId selectedAnswer db qn :
  questions db !! questionId = Some qn ->
  let correct :=
    if String.eqb
         (JsString.toLowerCase
            (Question.correct_answer (QuestionRow.fields qn)))
         (JsString.toLowerCase selectedAnswer)
    then 1%Z else 0%Z in
  recordAttempt now questionId selectedAnswer db
  = (Ok (qn, Boolean correct),
     mk (questions db)
        (attempts db ++
           [QuestionAttempt.mk (attempts_seq db + 1) questionId
              selectedAnswer correct now])
        (attempts_seq db + 1)).
Proof.
  intros H correct. unfold recordAttempt.
  rewrite (bind_ok _ _ _ _ _ (getQuestion_run questionId db)), H.
  reflexivity.
Qed.

Lemma insertQuestion_fresh now q db :
  questions db !! Question.id q = None ->
  insertQuestion now q db
  = (Ok tt,
     mk (<[Question.id q := QuestionRow.mk q now]> (questions db))
        (attempts db) (attempts_seq db)).
Proof.
  intros H. unfold insertQuestion, bind, get. now rewrite H.
Qed.

Lemma insertQuestion_duplicate now q db row :
  questions db !! Question.id q = Some row ->
  insertQuestion now q db
  = (Throw (SqliteError "SQLITE_CONSTRAINT_PRIMARYKEY"), db).
Proof.
  intros H. unfold insertQuestion, bind, get. now rewrite H.
Qed.

End Store.

(** C1.  [recordAttempt] on an id that is in no row of [questions] throws
    "Question not found" and leaves the database, so the [attempts] table,
    as it was.  On the id of a row it appends one row to [attempts], for
    this id and this answer, and returns the row of the question as stored
    together with the correctness flag written in the new row. *)
Theorem recordAttempt_fails_or_appends_one
    (now : Z) (db : Db.t) (questionId selectedLabel : string) :
  match Db.questions db !! questionId with
  | None =>
      Db.recordAttempt now questionId selectedLabel db
      = (Throw (JsError "Question not found"), db)
  | Some qn =>
      exists (attempt : QuestionAttempt.t) (isCorrect : bool) (db' : Db.t),
        Db.recordAttempt now questionId selectedLabel db
        = (Ok (qn, isCorrect), db')
        /\ Db.attempts db' = Db.attempts db ++ [attempt]
        /\ length (Db.attempts db') = S (length (Db.attempts db))
        /\ Db.questions db' = Db.questions db
        /\ QuestionAttempt.question_id attempt = questionId
        /\ QuestionAttempt.selected_answer attempt = selectedLabel
        /\ isCorrect = Db.Boolean (QuestionAttempt.correct attempt)
  end.
Proof.
  destruct (Db.questions db !! questionId) as [qn|] eqn:Hq.
  - pose proof (recordAttempt_known now questionId selectedLabel db qn Hq) as H.
    cbv zeta in H. eexists _, _, _. split; [exact H|]. simpl.
    rewrite length_app. simpl. repeat split; lia.
  - now apply recordAttempt_unknown.
Qed.

(** C2.  For a question that exists, the flag [recordAttempt] returns is
    true, and the [correct] column of the row it writes is 1, exactly when
    the selected label equals the stored [correct_answer] up to the case of
    its letters; otherwise the column is 0. *)
Theorem recordAttempt_correct_iff_same_label_ignoring_case
    (now : Z) (db : Db.t) (questionId selectedLabel : string)
    (qn : QuestionRow.t)
    (Hexists : Db.questions db !! questionId = Some qn) :
  exists (attempt : QuestionAttempt.t) (isCorrect : bool) (db' : Db.t),
    Db.recordAttempt now questionId selectedLabel db
    = (Ok (qn, isCorrect), db')
    /\ Db.attempts db' = Db.attempts db ++ [attempt]
    /\ (isCorrect = true
        <-> Spec.eq_ignore_case selectedLabel
              (Question.correct_answer (QuestionRow.fields qn)))
    /\ (QuestionAttempt.correct attempt = 1%Z
        <-> Spec.eq_ignore_case selectedLabel
              (Question.correct_answer (QuestionRow.fields qn)))
    /\ (QuestionAttempt.correct attempt = 1%Z
        \/ QuestionAttempt.correct attempt = 0%Z).
Proof.
  pose proof (recordAttempt_known now questionId selectedLabel db qn Hexists)
    as H.
  cbv zeta in H. eexists _, _, _. split; [exact H|]. simpl.
  split; [reflexivity|].
  destruct (String.eqb_spec
              (JsString.toLowerCase
                 (Question.correct_answer (QuestionRow.fields qn)))
              (JsString.toLowerCase selectedLabel)) as [Heq|Hne].
  - apply toLowerCase_eq_ignore_case, eq_ignore_case_sym in Heq.
    repeat split; auto.
  - assert (~ Spec.eq_ignore_case selectedLabel
                (Question.correct_answer (QuestionRow.fields qn))) as Hn.
    { intros Hc. apply Hne, toLowerCase_eq_ignore_case.
      now apply eq_ignore_case_sym. }
    repeat split; try (intros; (discriminate || contradiction)).
    now right.
Qed.

(** The spec's own example: selected "b" against the stored "B". *)
Lemma recordAttempt_correct_iff_same_label_ignoring_case_witness :
  Db.questions Examples.db1 !! "Q1" = Some Examples.row1
  /\ exists (attempt : QuestionAttempt.t) (isCorrect : bool) (db' : Db.t),
       Db.recordAttempt 2000 "Q1" "b" Examples.db1
       = (Ok (Examples.row1, isCorrect), db')
       /\ Db.attempts db' = Db.attempts Examples.db1 ++ [attempt]
       /\ (isCorrect = true
           <-> Spec.eq_ignore_case "b"
                 (Question.correct_answer
                    (QuestionRow.fields Examples.row1)))
       /\ (QuestionAttempt.correct attempt = 1%Z
           <-> Spec.eq_ignore_case "b"
                 (Question.correct_answer
                    (QuestionRow.fields Examples.row1)))
       /\ (QuestionAttempt.correct attempt = 1%Z
           \/ QuestionAttempt.correct attempt = 0%Z).
Proof.
  split; [reflexivity|].
  apply (recordAttempt_correct_iff_same_label_ignoring_case
           2000 Examples.db1 "Q1" "b" Examples.row1).
  reflexivity.
Defined.

(** C8.  Two calls of [recordAttempt] with the same existing id and the
    same label both succeed and each appends its own row, with the next
    rowid, behind the rows that were there, which stay as they were; the
    [questions] table is the same after each call, and both calls return
    the question's row as stored.  ([Db] has no statement that updates or
    deletes a row of [attempts].) *)
Theorem recordAttempt_twice_appends_twice
    (now1 now2 : Z) (db : Db.t) (questionId selectedLabel : string)
    (qn : QuestionRow.t)
    (Hexists : Db.questions db !! questionId = Some qn) :
  exists (a1 a2 : QuestionAttempt.t) (c1 c2 : bool) (db1 db2 : Db.t),
    Db.recordAttempt now1 questionId selectedLabel db = (Ok (qn, c1), db1)
    /\ Db.recordAttempt now2 questionId selectedLabel db1 = (Ok (qn, c2), db2)
    /\ Db.attempts db1 = Db.attempts db ++ [a1]
    /\ Db.attempts db2 = Db.attempts db ++ [a1; a2]
    /\ QuestionAttempt.id a2 = (QuestionAttempt.id a1 + 1)%Z
    /\ QuestionAttempt.correct a2 = QuestionAttempt.correct a1
    /\ c2 = c1
    /\ Db.questions db1 = Db.questions db
    /\ Db.questions db2 = Db.questions db
    /\ Db.questions db2 !! questionId = Some qn.
Proof.
  pose proof (recordAttempt_known now1 questionId selectedLabel db qn Hexists)
    as H1.
  cbv zeta in H1.
  set (db1 := snd (Db.recordAttempt now1 questionId selectedLabel db)).
  assert (Db.questions db1 !! questionId = Some qn) as Hexists1.
  { subst db1. rewrite H1. exact Hexists. }
  pose proof (recordAttempt_known now2 questionId selectedLabel db1 qn Hexists1)
    as H2.
  cbv zeta in H2. subst db1. rewrite H1 in H2. simpl in H2.
  eexists _, _, _, _, _, _.
  split; [exact H1|]. split; [exact H2|]. simpl.
  rewrite <- app_assoc. simpl. repeat split; auto.
Qed.

Lemma recordAttempt_twice_appends_twice_witness :
  Db.questions Examples.db1 !! "Q1" = Some Examples.row1
  /\ exists (a1 a2 : QuestionAttempt.t) (c1 c2 : bool) (db1 db2 : Db.t),
       Db.recordAttempt 2000 "Q1" "B" Examples.db1
       = (Ok (Examples.row1, c1), db1)
       /\ Db.recordAttempt 2005 "Q1" "B" db1 = (Ok (Examples.row1, c2), db2)
       /\ Db.attempts db1 = Db.attempts Examples.db1 ++ [a1]
       /\ Db.attempts db2 = Db.attempts Examples.db1 ++ [a1; a2]
       /\ QuestionAttempt.id a2 = (QuestionAttempt.id a1 + 1)%Z
       /\ QuestionAttempt.correct a2 = QuestionAttempt.correct a1
       /\ c2 = c1
       /\ Db.questions db1 = Db.questions Examples.db1
       /\ Db.questions db2 = Db.questions Examples.db1
       /\ Db.questions db2 !! "Q1" = Some Examples.row1.
Proof.
  split; [reflexivity|].
  apply (recordAttempt_twice_appends_twice
           2000 2005 Examples.db1 "Q1" "B" Examples.row1).
  reflexivity.
Defined.

(** C7, as the code has it.  A question whose id is not yet in the store
    is inserted, and [getQuestion] of its id then returns a row with the
    very six fields that were inserted ([id], [notion_page_id],
    [leetcode_question], [question], [correct_answer], [explanation]) and
    the time of the insert; the fetch changes nothing.  The options are no
    column of the table. *)
Theorem insertQuestion_getQuestion_roundtrip
    (now : Z) (db : Db.t) (q : Question.t)
    (Hfresh : Db.questions db !! Question.id q = None) :
  exists db' : Db.t,
    Db.insertQuestion now q db = (Ok tt, db')
    /\ Db.getQuestion (Question.id q) db'
       = (Ok (Some (QuestionRow.mk q now)), db')
    /\ Db.attempts db' = Db.attempts db.
Proof.
  eexists. split; [now apply insertQuestion_fresh|].
  rewrite getQuestion_run. simpl.
  rewrite lookup_insert_eq. split; reflexivity.
Qed.

Lemma insertQuestion_getQuestion_roundtrip_witness :
  Db.questions Db.empty !! Question.id Examples.question1 = None
  /\ exists db' : Db.t,
       Db.insertQuestion 1000 Examples.question1 Db.empty = (Ok tt, db')
       /\ Db.getQuestion (Question.id Examples.question1) db'
          = (Ok (Some (QuestionRow.mk Examples.question1 1000)), db')
       /\ Db.attempts db' = Db.attempts Db.empty.
Proof.
  split; [reflexivity|].
  apply (insertQuestion_getQuestion_roundtrip 1000 Db.empty Examples.question1).
  reflexivity.
Defined.

(** C7 as stated fails: three questions whose options differ, in order or
    in flags, are saved by [saveToDb] as the same row, so the row fetched
    by id determines neither the order of the options nor their flags. *)
Lemma store_forgets_options :
  let fetched mcq :=
    fst (Db.getQuestion "Q1"
           (snd (FetchDb.saveToDb None 1000 [mcq] Db.empty))) in
  fetched Examples.mcq_a = Ok (Some Examples.row1)
  /\ fetched Examples.mcq_b = fetched Examples.mcq_a
  /\ fetched Examples.mcq_c = fetched Examples.mcq_a
  /\ FetchDb.options (FetchDb.parsed Examples.mcq_b)
     <> FetchDb.options (FetchDb.parsed Examples.mcq_a)
  /\ map FetchDb.is_correct (FetchDb.options (FetchDb.parsed Examples.mcq_c))
     <> map FetchDb.is_correct (FetchDb.options (FetchDb.parsed Examples.mcq_a)).
Proof.
  cbv zeta. repeat split; try reflexivity; discriminate.
Qed.

(* ===================================================================== *)
(** ** The action payload *)
(* ===================================================================== *)

Section Payload.

Import JsString.

Lemma split_no_sep sep s : includes sep s = false -> split sep s = [s].
Proof.
  induction s as [|c s IH]; simpl; [reflexivity|].
  intros H. apply orb_false_iff in H as [Hc Hs].
  now rewrite Hc, (IH Hs).
Qed.

Lemma split_segment sep s t :
  includes sep s = false ->
  split sep (s +:+ String sep t) = s :: split sep t.
Proof.
  induction s as [|c s IH]; simpl.
  - intros _. now rewrite Ascii.eqb_refl.
  - intros H. apply orb_false_iff in H as [Hc Hs].
    now rewrite Hc, (IH Hs).
Qed.

(** The label of a position below 191 is one code unit of the model, at
    or above 'A': it holds no colon. *)
Lemma label_has_no_colon (idx : nat) :
  (idx < 191)%nat ->
  includes ":" (fromCharCode (65 + Z.of_nat idx)) = false.
Proof.
  intros Hidx. unfold fromCharCode. simpl. rewrite orb_false_r.
  apply Ascii.eqb_neq. intros Heq.
  apply (f_equal N_of_ascii) in Heq.
  rewrite N_ascii_embedding in Heq.
  - rewrite Z.mod_small in Heq by lia. simpl in Heq. lia.
  - rewrite Z.mod_small by lia. lia.
Qed.

(** The keyboards [sendToTelegram] sends are those of its questions. *)
Lemma sendToTelegram_keyboards mcqs text keyboard :
  In (text, Some keyboard) (FetchDb.sendToTelegram mcqs) ->
  exists mcq, In mcq mcqs /\ keyboard = FetchDb.inlineKeyboard mcq.
Proof.
  induction mcqs as [|mcq mcqs IH]; simpl; [contradiction|].
  intros [H | [H | H]].
  - discriminate.
  - injection H as _ <-. exists mcq. auto.
  - destruct (IH H) as (mcq' & Hin & ->). exists mcq'. auto.
Qed.

End Payload.

(** C4.  Every button [sendToTelegram] puts on the keyboard of a question
    whose id holds no colon carries a payload that the webhook's split on
    ":" decodes to the button's own label and the question's id.  The
    positions are those below 191, whose label 65 + idx is a code unit of
    the model; the labels 'A'..'Z' of the specification are the first 26. *)
Theorem callback_payload_roundtrip
    (mcq : FetchDb.McqQuestion) (idx : nat) (row : list FetchDb.Button)
    (Hid : JsString.includes ":" (FetchDb.id mcq) = false)
    (Hidx : (idx < 191)%nat)
    (Hrow : FetchDb.inlineKeyboard mcq !! idx = Some row) :
  exists button : FetchDb.Button,
    row = [button]
    /\ FetchDb.text button = JsString.fromCharCode (65 + Z.of_nat idx)
    /\ Bot.decode (FetchDb.callbackData button)
       = (Some (FetchDb.text button), Some (FetchDb.id mcq)).
Proof.
  unfold FetchDb.inlineKeyboard in Hrow.
  rewrite list_lookup_imap in Hrow.
  destruct (FetchDb.options (FetchDb.parsed mcq) !! idx) as [opt|];
    [|discriminate].
  simpl in Hrow. injection Hrow as <-.
  eexists. split; [reflexivity|]. split; [reflexivity|].
  cbn [FetchDb.text FetchDb.callbackData]. unfold Bot.decode.
  change ("answer:" +:+ ?x) with ("answer" +:+ String ":" x).
  rewrite split_segment by reflexivity.
  change (?l +:+ ":" +:+ ?x) with (l +:+ String ":" x).
  rewrite split_segment by now apply label_has_no_colon.
  rewrite split_no_sep by exact Hid.
  reflexivity.
Qed.

Lemma callback_payload_roundtrip_witness :
  JsString.includes ":" (FetchDb.id Examples.mcq_a) = false
  /\ (1 < 191)%nat
  /\ FetchDb.inlineKeyboard Examples.mcq_a !! 1%nat
     = Some [{| FetchDb.text := "B"; FetchDb.callbackData := "answer:B:Q1" |}]
  /\ exists button : FetchDb.Button,
       [{| FetchDb.text := "B"; FetchDb.callbackData := "answer:B:Q1" |}]
       = [button]
       /\ FetchDb.text button = JsString.fromCharCode (65 + Z.of_nat 1)
       /\ Bot.decode (FetchDb.callbackData button)
          = (Some (FetchDb.text button), Some (FetchDb.id Examples.mcq_a)).
Proof.
  split; [reflexivity|]. split; [lia|]. split; [reflexivity|].
  apply (callback_payload_roundtrip Examples.mcq_a 1); [reflexivity | lia | reflexivity].
Defined.

(* ===================================================================== *)
(** ** The stored correct answer *)
(* ===================================================================== *)

Section CorrectAnswer.

Import FetchDb.

Lemma findIndex_from_spec {A} (p : A -> bool) (l : list A) (i : Z) :
  (0 <= i)%Z ->
  if existsb p l
  then (i <= findIndex_from p l i < i + Z.of_nat (length l))%Z
  else findIndex_from p l i = (-1)%Z.
Proof.
  revert i. induction l as [|x l IH]; intros i Hi; simpl; [reflexivity|].
  destruct (p x); simpl; [lia|].
  specialize (IH (i + 1)%Z ltac:(lia)).
  destruct (existsb p l); lia.
Qed.

End CorrectAnswer.

(** C10.  In [saveToDb] the operand left of [??] is the number
    65 + findIndex, so the expression has that value whatever stands right
    of [??], and the 26 is never used.  The stored [correct_answer] is the
    character of code 65 + findIndex: findIndex is the position of the
    first option marked correct, and when none is marked it is -1 and the
    stored character is '@', of code 64. *)
Theorem correct_answer_fallback_never_taken
    (DATABASE_ID : option string) (mcq : FetchDb.McqQuestion) :
  let opts := FetchDb.options (FetchDb.parsed mcq) in
  let found := FetchDb.findIndex FetchDb.is_correct opts in
  FetchDb.correct_answer_code mcq = FetchDb.number (65 + found)
  /\ (forall fallback : FetchDb.JsValue,
        FetchDb.nullish_coalesce (FetchDb.number (65 + found)) fallback
        = FetchDb.number (65 + found))
  /\ Question.correct_answer (FetchDb.question_of_mcq DATABASE_ID mcq)
     = JsString.fromCharCode (65 + found)
  /\ (if existsb FetchDb.is_correct opts
      then (0 <= found < Z.of_nat (length opts))%Z
      else found = (-1)%Z
           /\ Question.correct_answer (FetchDb.question_of_mcq DATABASE_ID mcq)
              = "@").
Proof.
  intros opts found.
  split; [reflexivity|]. split; [reflexivity|]. split; [reflexivity|].
  pose proof (findIndex_from_spec FetchDb.is_correct opts 0 ltac:(lia)) as H.
  fold (FetchDb.findIndex FetchDb.is_correct opts) in H. fold found in H.
  destruct (existsb FetchDb.is_correct opts); [lia|].
  split; [exact H|].
  unfold FetchDb.question_of_mcq, FetchDb.correct_answer_code. simpl.
  fold opts. fold found. now rewrite H.
Qed.

(* ===================================================================== *)
(** ** The synthesizer *)
(* ===================================================================== *)

Section Synthesizer.

Import FetchDb.

Lemma McqOptionSchema_option_json o :
  McqOptionSchema (Some (Spec.option_json o)) = Some o.
Proof. destruct o. reflexivity. Qed.

Lemma mapM_option_json (os : list McqOption) :
  mapM (fun item => McqOptionSchema (Some item)) (map Spec.option_json os)
  = Some os.
Proof.
  induction os as [|o os IH]; [reflexivity|].
  cbn [map mapM]. rewrite McqOptionSchema_option_json. simpl.
  now rewrite IH.
Qed.

(** The schema accepts the document of any MCQ, whatever the number of
    its options and of its correct flags. *)
Lemma McqQuestionSchema_mcq_json (m : McqParsed) :
  McqQuestionSchema (Spec.mcq_json m) = Some m.
Proof.
  destruct m as [q d os e]. unfold McqQuestionSchema, Spec.mcq_json. simpl.
  rewrite mapM_option_json. reflexivity.
Qed.

Lemma generateMcqs_loop_spec (sv : Services) (questions : list LeetcodeQuestion) :
  forall (acc : list McqQuestion) (c : Calls) (mcqs : list McqQuestion)
         (c' : Calls),
    generateMcqs_loop sv questions acc c = (Ok mcqs, c') ->
    exists (outputs : list (option McqParsed)) (new : list McqQuestion),
      imap (fun k q => messages_parse sv (parse_calls c + k) (prompt q))
           questions
      = map Ok outputs
      /\ mcqs = acc ++ new
      /\ map parsed new = omap (fun output => output) outputs
      /\ map id new
         = map (nanoid sv) (seq (nanoid_calls c) (length new)).
Proof.
  induction questions as [|q rest IH]; intros acc c mcqs c' Hrun.
  - injection Hrun as <- <-. exists [], []. simpl.
    now rewrite app_nil_r.
  - cbn [generateMcqs_loop] in Hrun. unfold bind at 1 in Hrun.
    unfold call_messages_parse at 1 in Hrun.
    destruct (messages_parse sv (parse_calls c) (prompt q))
      as [[p|]|e] eqn:Hcall; [| |discriminate].
    + unfold bind at 1, call_nanoid at 1 in Hrun.
      apply IH in Hrun as (outputs & new & Hcalls & -> & Hparsed & Hids).
      cbn [parse_calls nanoid_calls] in *.
      exists (Some p :: outputs),
             ({| parsed := p; id := nanoid sv (nanoid_calls c) |} :: new).
      repeat split.
      * cbn [imap map]. rewrite Nat.add_0_r, Hcall. f_equal.
        rewrite <- Hcalls. apply imap_ext. intros k x _. simpl.
        now rewrite Nat.add_succ_r.
      * now rewrite <- app_assoc.
      * simpl. now rewrite Hparsed.
      * simpl. now rewrite Hids.
    + apply IH in Hrun as (outputs & new & Hcalls & -> & Hparsed & Hids).
      cbn [parse_calls nanoid_calls] in *.
      exists (None :: outputs), new.
      repeat split; try assumption.
      cbn [imap map]. rewrite Nat.add_0_r, Hcall. f_equal.
      rewrite <- Hcalls. apply imap_ext. intros k x _. simpl.
      now rewrite Nat.add_succ_r.
Qed.

End Synthesizer.

(** C3, as the code has it.  When [generateMcqs] returns, every call of
    the generation service has returned, and the MCQs are, in order, the
    parsed outputs that were not null, each with the next id drawn: a reply
    without parsed output gives no MCQ, any other gives exactly one.  A
    parsed output is what [McqQuestionSchema] accepts: strings for
    [question], [leetcode_description], [explanation] and an array of
    [{content, is_correct}] for [options]; the schema accepts the document
    of every such object, so neither the number of options nor the number
    of correct flags is constrained. *)
Theorem generateMcqs_returns_parsed_outputs
    (sv : FetchDb.Services) (questions : list FetchDb.LeetcodeQuestion)
    (c c' : FetchDb.Calls) (mcqs : list FetchDb.McqQuestion)
    (Hrun : FetchDb.generateMcqs sv questions c = (Ok mcqs, c')) :
  (exists outputs : list (option FetchDb.McqParsed),
      imap (fun k q =>
              FetchDb.messages_parse sv (FetchDb.parse_calls c + k)
                (FetchDb.prompt q))
           questions
      = map Ok outputs
      /\ map FetchDb.parsed mcqs = omap (fun output => output) outputs
      /\ map FetchDb.id mcqs
         = map (FetchDb.nanoid sv)
             (seq (FetchDb.nanoid_calls c) (length mcqs)))
  /\ (forall m : FetchDb.McqParsed,
        FetchDb.McqQuestionSchema (Spec.mcq_json m) = Some m).
Proof.
  split; [|exact McqQuestionSchema_mcq_json].
  apply generateMcqs_loop_spec in Hrun
    as (outputs & new & Hcalls & -> & Hparsed & Hids).
  exists outputs. simpl. auto.
Qed.

Lemma generateMcqs_returns_parsed_outputs_witness :
  FetchDb.generateMcqs Examples.services_a [Examples.two_sum] Examples.no_calls
  = (Ok [Examples.mcq_a],
     {| FetchDb.parse_calls := 1; FetchDb.nanoid_calls := 1 |})
  /\ (exists outputs : list (option FetchDb.McqParsed),
         imap (fun k q =>
                 FetchDb.messages_parse Examples.services_a
                   (FetchDb.parse_calls Examples.no_calls + k)
                   (FetchDb.prompt q))
              [Examples.two_sum]
         = map Ok outputs
         /\ map FetchDb.parsed [Examples.mcq_a] = omap (fun output => output) outputs
         /\ map FetchDb.id [Examples.mcq_a]
            = map (FetchDb.nanoid Examples.services_a)
                (seq (FetchDb.nanoid_calls Examples.no_calls)
                   (length [Examples.mcq_a])))
  /\ (forall m : FetchDb.McqParsed,
        FetchDb.McqQuestionSchema (Spec.mcq_json m) = Some m).
Proof.
  split; [reflexivity|].
  apply (generateMcqs_returns_parsed_outputs
           Examples.services_a [Examples.two_sum] Examples.no_calls
           {| FetchDb.parse_calls := 1; FetchDb.nanoid_calls := 1 |}).
  reflexivity.
Defined.

(** C3 as stated fails: a reply with three options, none marked correct,
    validates against [McqQuestionSchema], and [generateMcqs] returns it as
    an MCQ. *)
Lemma generateMcqs_accepts_three_options_none_correct :
  exists (m : FetchDb.McqQuestion) (c' : FetchDb.Calls),
    FetchDb.McqQuestionSchema Examples.reply_three_options
    = Some (FetchDb.parsed m)
    /\ FetchDb.generateMcqs Examples.services3 [Examples.two_sum]
         Examples.no_calls
       = (Ok [m], c')
    /\ length (FetchDb.options (FetchDb.parsed m)) = 3%nat
    /\ length (FetchDb.options (FetchDb.parsed m)) <> 4%nat
    /\ ~ Spec.exactly_one_correct (FetchDb.options (FetchDb.parsed m)).
Proof.
  eexists _, _. split; [|split; [reflexivity|]].
  - reflexivity.
  - simpl. repeat split; try discriminate.
Qed.

(* ===================================================================== *)
(** ** The streak *)
(* ===================================================================== *)

Section StreakFacts.

Import Streak.

Variable utc_offset : Z.

Lemma on_or_before_step day a :
  (Spec.on_or_before utc_offset (day - 1) a = true ->
   Spec.on_or_before utc_offset day a = true)
  /\ (correct_on utc_offset day a = true ->
      Spec.on_or_before utc_offset day a = true
      /\ Spec.on_or_before utc_offset (day - 1) a = false).
Proof.
  unfold Spec.on_or_before, correct_on.
  destruct (QuestionAttempt.correct a =? 1)%Z; simpl; [|split; discriminate].
  rewrite !Z.leb_le, Z.eqb_eq, Z.leb_gt. lia.
Qed.

Lemma correct_until_step day attempts :
  (Spec.correct_until utc_offset (day - 1) attempts
   <= Spec.correct_until utc_offset day attempts)%nat
  /\ (has_correct_on utc_offset day attempts = true ->
      (Spec.correct_until utc_offset (day - 1) attempts
       < Spec.correct_until utc_offset day attempts)%nat).
Proof.
  unfold Spec.correct_until, has_correct_on.
  induction attempts as [|a attempts [IHle IHlt]]; simpl.
  - split; [lia | discriminate].
  - destruct (on_or_before_step day a) as [Hmono Hon].
    destruct (correct_on utc_offset day a) eqn:Hc; simpl.
    + destruct (Hon eq_refl) as [-> ->]. simpl. split; lia.
    + destruct (Spec.on_or_before utc_offset (day - 1) a) eqn:Hb.
      * rewrite (Hmono eq_refl). simpl.
        split; [lia|]. intros Hrest. specialize (IHlt Hrest). lia.
      * destruct (Spec.on_or_before utc_offset day a); simpl;
          (split; [lia|]); intros Hrest; specialize (IHlt Hrest); lia.
Qed.

Lemma correct_until_zero day attempts :
  Spec.correct_until utc_offset day attempts = 0%nat ->
  has_correct_on utc_offset day attempts = false.
Proof.
  intros H. destruct (has_correct_on utc_offset day attempts) eqn:Hc;
    [|reflexivity].
  apply correct_until_step in Hc. lia.
Qed.

Lemma correct_until_length day attempts :
  (Spec.correct_until utc_offset day attempts <= length attempts)%nat.
Proof. unfold Spec.correct_until. apply List.filter_length_le. Qed.

(** With fuel for every correct Attempt up to [day], the walk stops at a
    day without a correct Attempt, having counted the days before it. *)
Lemma walk_back_spec fuel :
  forall day attempts,
    (Spec.correct_until utc_offset day attempts <= fuel)%nat ->
    let n := walk_back fuel utc_offset day attempts in
    (0 <= n)%Z
    /\ (forall k, (0 <= k < n)%Z ->
                  has_correct_on utc_offset (day - k) attempts = true)
    /\ has_correct_on utc_offset (day - n) attempts = false.
Proof.
  induction fuel as [|fuel IH]; intros day attempts Hfuel; simpl.
  - rewrite Z.sub_0_r. repeat split; [lia | lia |].
    apply correct_until_zero. lia.
  - destruct (has_correct_on utc_offset day attempts) eqn:Hday.
    + pose proof (proj2 (correct_until_step day attempts) Hday) as Hlt.
      destruct (IH (day - 1)%Z attempts ltac:(lia)) as (Hn & Hrun & Hstop).
      repeat split.
      * lia.
      * intros k Hk. destruct (Z.eq_dec k 0%Z) as [->|Hk0].
        -- now rewrite Z.sub_0_r.
        -- replace (day - k)%Z with (day - 1 - (k - 1))%Z by lia.
           apply Hrun. lia.
      * replace (day - (1 + walk_back fuel utc_offset (day - 1) attempts))%Z
          with (day - 1 - walk_back fuel utc_offset (day - 1) attempts)%Z
          by lia.
        exact Hstop.
    + rewrite Z.sub_0_r. repeat split; [lia | lia | exact Hday].
Qed.

End StreakFacts.

(** C5.  [getCurrentStreak] returns, without touching the store, the
    number n of consecutive local calendar days, walking backward from the
    day of [asOf], that each hold an Attempt with [isCorrect = true]: the n
    days from that day back all hold one, the day before them holds none,
    and n is the only number with these two properties.  It is 0 when the
    day of [asOf] holds no correct Attempt. *)
Theorem getCurrentStreak_counts_trailing_days
    (utc_offset asOf : Z) (db : Db.t) :
  let today := Streak.local_day utc_offset asOf in
  let correct_on day :=
    Streak.has_correct_on utc_offset day (Db.attempts db) in
  exists n : Z,
    Streak.getCurrentStreak utc_offset asOf db = (Ok n, db)
    /\ (0 <= n)%Z
    /\ (forall k, (0 <= k < n)%Z -> correct_on (today - k)%Z = true)
    /\ correct_on (today - n)%Z = false
    /\ (forall m, (0 <= m)%Z ->
                  (forall k, (0 <= k < m)%Z -> correct_on (today - k)%Z = true) ->
                  correct_on (today - m)%Z = false -> m = n)
    /\ (correct_on today = false -> n = 0%Z).
Proof.
  intros today correct_on.
  destruct (walk_back_spec utc_offset (length (Db.attempts db)) today
              (Db.attempts db) (correct_until_length _ _ _))
    as (Hn & Hrun & Hstop).
  eexists. split; [reflexivity|]. fold today.
  set (n := Streak.walk_back _ _ _ _) in *.
  split; [exact Hn|]. split; [exact Hrun|]. split; [exact Hstop|]. split.
  - intros m Hm Hrun' Hstop'.
    destruct (Z.lt_trichotomy m n) as [Hlt | [Heq | Hgt]]; [|exact Heq|].
    + unfold correct_on in Hstop'. rewrite Hrun in Hstop' by lia.
      discriminate.
    + specialize (Hrun' n ltac:(lia)). unfold correct_on in Hrun'.
      rewrite Hstop in Hrun'. discriminate.
  - intros Htoday. destruct (Z.eq_dec n 0%Z) as [|Hne]; [assumption|].
    specialize (Hrun 0%Z ltac:(lia)). rewrite Z.sub_0_r in Hrun.
    unfold correct_on in Htoday. rewrite Hrun in Htoday. discriminate.
Qed.

(** The scenario of section 8: correct answers on two consecutive days, a
    day without one, then a correct answer: the streak as of the last day
    is 1; it was 2 on the second day and 0 on the day of the gap. *)
Example getCurrentStreak_after_gap :
  fst (Streak.getCurrentStreak 0 (13 * 86400 + 7200) Examples.db_gap) = Ok 1%Z
  /\ fst (Streak.getCurrentStreak 0 (11 * 86400 + 7200) Examples.db_gap)
     = Ok 2%Z
  /\ fst (Streak.getCurrentStreak 0 (12 * 86400 + 7200) Examples.db_gap)
     = Ok 0%Z.
Proof. repeat split; vm_compute; reflexivity. Qed.

(* ===================================================================== *)
(** ** The webhook *)
(* ===================================================================== *)

Section Webhook.

Import Bot.

Lemma console_error_run text error w :
  console_error text error w
  = (Ok tt, {| file := file w; console := console w ++ [(text, error)];
               requests := requests w |}).
Proof. reflexivity. Qed.

(** [sendTelegramMessage] never throws and never touches the database; it
    only adds lines to the console and requests to the network. *)
Lemma sendTelegramMessage_run env text w :
  exists w',
    sendTelegramMessage env text w = (Ok tt, w')
    /\ file w' = file w
    /\ (forall line, In line (console w) -> In line (console w'))
    /\ (forall r, In r (requests w) -> In r (requests w')).
Proof.
  unfold sendTelegramMessage.
  destruct (negb (JsString.truthy (BOT_TOKEN env))
            || negb (JsString.truthy (CHAT_ID env)));
    [eexists; split; [apply console_error_run|]; simpl; repeat split;
      auto using in_or_app|].
  unfold try_catch, fetch.
  destruct (fetch_resolves env (SendMessage (CHAT_ID env) text)).
  - eexists; split; [reflexivity|]. simpl. repeat split; auto using in_or_app.
  - eexists; split; [apply console_error_run|]. simpl.
    repeat split; auto using in_or_app.
Qed.

Lemma recordAttempt_any_no_id now answer db :
  recordAttempt_any now None answer db
  = (Throw (JsError "Question not found"), db).
Proof. reflexivity. Qed.

(** Without a question id [handleAnswer], once the database is open, logs
    the failure of [recordAttempt] and writes nothing to the database. *)
Lemma handleAnswer_no_id env answer callback w :
  database_opens env = true ->
  exists w',
    handleAnswer env answer None callback w = (Ok tt, w')
    /\ file w' = file w
    /\ In ("Error recording attempt:", Some (JsError "Question not found"))
          (console w')
    /\ (forall r, In r (requests w) -> In r (requests w')).
Proof.
  intros Hopen. unfold handleAnswer, new_Db. rewrite Hopen.
  unfold bind, try_catch, on_db, Db.init, ret, throw, console_error.
  cbn -[sendTelegramMessage].
  match goal with
  | |- context [sendTelegramMessage env ErrorReply ?w0] =>
      destruct (sendTelegramMessage_run env ErrorReply w0)
        as (w' & Hsend & Hfile & Hconsole & Hrequests)
  end.
  exists w'. split; [exact Hsend|]. split; [exact Hfile|]. split.
  - apply Hconsole. simpl. apply in_or_app. right. now left.
  - exact Hrequests.
Qed.

Lemma decode_short d :
  (length (JsString.split ":" d) < 3)%nat -> snd (decode d) = None.
Proof.
  intros H. unfold decode. simpl. apply lookup_ge_None_2. lia.
Qed.

Lemma webhook_short_run env callback d w :
  data callback = Some d ->
  (length (JsString.split ":" d) < 3)%nat ->
  exists r w',
    webhook env (Some callback) w = (r, w')
    /\ file w' = file w
    /\ In (AnswerCallbackQuery (id callback)) (requests w')
    /\ (r = Ok 200%Z ->
        In ("Error recording attempt:", Some (JsError "Question not found"))
           (console w')).
Proof.
  intros Hdata Hshort.
  unfold webhook, destructure. rewrite Hdata.
  unfold bind at 1, ret at 1.
  pose proof (decode_short d Hshort) as Hid.
  destruct (decode d) as [answer questionId]. simpl in Hid. subst questionId.
  unfold bind at 1, answerCallbackQuery, fetch at 1.
  assert (forall rs : list Request,
             In (AnswerCallbackQuery (id callback))
                (rs ++ [AnswerCallbackQuery (id callback)])) as Hack
    by (intros rs; apply in_or_app; right; now left).
  destruct (fetch_resolves env (AnswerCallbackQuery (id callback)));
    [|eexists _, _; split; [reflexivity|]; simpl; repeat split;
      [apply Hack | discriminate]].
  unfold bind at 1, removeInlineKeyboard.
  destruct (message callback) as [m|];
    [|eexists _, _; split; [reflexivity|]; simpl; repeat split;
      [apply Hack | discriminate]].
  unfold fetch at 1.
  destruct (fetch_resolves env _);
    [|eexists _, _; split; [reflexivity|]; simpl; repeat split;
      [apply in_or_app; left; apply Hack | discriminate]].
  unfold bind at 1.
  destruct (database_opens env) eqn:Hopen.
  - match goal with
    | |- context [handleAnswer env answer None callback ?w0] =>
        destruct (handleAnswer_no_id env answer callback w0 Hopen)
          as (w' & Hrun & Hfile & Hlog & Hrequests)
    end.
    rewrite Hrun. eexists _, _. split; [reflexivity|].
    split; [exact Hfile|]. split; [|intros _; exact Hlog].
    apply Hrequests. simpl. apply in_or_app. left. apply Hack.
  - unfold handleAnswer, new_Db. rewrite Hopen.
    eexists _, _; split; [reflexivity|]; simpl; repeat split;
      [apply in_or_app; left; apply Hack | discriminate].
Qed.

End Webhook.

(** C6, as the code has it.  A payload with fewer than three segments
    between colons gives the handler no question id.  The event is not
    dropped, the acknowledgment is still requested; but the handler writes
    no Attempt row: the database file is left as it was.  When the handler
    gets as far as answering 200 (the acknowledgment and the edit of the
    message went through and the database opened), it has logged
    "Error recording attempt:" with the error "Question not found". *)
Theorem webhook_short_payload_writes_no_attempt
    (env : Bot.Env) (callback : Bot.CallbackQuery) (d : string)
    (w : Bot.World)
    (Hdata : Bot.data callback = Some d)
    (Hshort : (length (JsString.split ":" d) < 3)%nat) :
  let outcome := Bot.webhook env (Some callback) w in
  Bot.file (snd outcome) = Bot.file w
  /\ Db.attempts (Bot.file (snd outcome)) = Db.attempts (Bot.file w)
  /\ In (Bot.AnswerCallbackQuery (Bot.id callback))
        (Bot.requests (snd outcome))
  /\ (fst outcome = Ok 200%Z ->
      In ("Error recording attempt:", Some (JsError "Question not found"))
         (Bot.console (snd outcome))).
Proof.
  destruct (webhook_short_run env callback d w Hdata Hshort)
    as (r & w' & Hrun & Hfile & Hack & Hlog).
  cbv zeta. rewrite Hrun. simpl.
  split; [exact Hfile|]. split; [now rewrite Hfile|].
  split; [exact Hack | exact Hlog].
Qed.

Lemma webhook_short_payload_writes_no_attempt_witness :
  Bot.data (Examples.callback_with (Some "answer:B")) = Some "answer:B"
  /\ (length (JsString.split ":" "answer:B") < 3)%nat
  /\ let outcome :=
       Bot.webhook Examples.env_ok
         (Some (Examples.callback_with (Some "answer:B"))) Examples.world1 in
     Bot.file (snd outcome) = Bot.file Examples.world1
     /\ Db.attempts (Bot.file (snd outcome))
        = Db.attempts (Bot.file Examples.world1)
     /\ In (Bot.AnswerCallbackQuery
              (Bot.id (Examples.callback_with (Some "answer:B"))))
           (Bot.requests (snd outcome))
     /\ (fst outcome = Ok 200%Z ->
         In ("Error recording attempt:", Some (JsError "Question not found"))
            (Bot.console (snd outcome))).
Proof.
  split; [reflexivity|]. split; [simpl; lia|].
  apply (webhook_short_payload_writes_no_attempt
           Examples.env_ok (Examples.callback_with (Some "answer:B"))
           "answer:B" Examples.world1); [reflexivity | simpl; lia].
Defined.

(** C6 as stated fails.  A payload of four segments is not of the form
    [kind:selectedLabel:questionId], yet the handler reads its second and
    third segments, records an Attempt for them and logs nothing.  And a
    payload of one segment is not dropped: the handler acknowledges it,
    edits the message with the answer [undefined] and sends the failure
    notice. *)
Lemma webhook_records_attempt_for_long_payload :
  let long :=
    Bot.webhook Examples.env_ok
      (Some (Examples.callback_with (Some "answer:B:Q1:junk")))
      Examples.world1 in
  let short :=
    Bot.webhook Examples.env_ok
      (Some (Examples.callback_with (Some "garbage"))) Examples.world1 in
  Spec.well_formed_payload "answer:B:Q1:junk" = false
  /\ fst long = Ok 200%Z
  /\ Db.attempts (Bot.file (snd long))
     = [QuestionAttempt.mk 1 "Q1" "B" 1 2000]
  /\ Db.attempts (Bot.file (snd long))
     <> Db.attempts (Bot.file Examples.world1)
  /\ Bot.console (snd long) = []
  /\ Spec.well_formed_payload "garbage" = false
  /\ Bot.requests (snd short)
     = [Bot.AnswerCallbackQuery "cb1";
        Bot.EditMessageText 42 7
          ("*Question:*" +:+ FetchDb.newline +:+ FetchDb.newline
           +:+ "*You selected:*" +:+ FetchDb.newline +:+ "undefined");
        Bot.SendMessage (Some "42") Bot.ErrorReply].
Proof.
  cbv zeta. repeat split; try reflexivity. discriminate.
Qed.

Section WebhookResponse.

Import Bot.

(** Once the database is open, [handleAnswer] completes whatever
    [recordAttempt] and the sending of the reply do. *)
Lemma handleAnswer_completes env answer questionId callback w :
  database_opens env = true ->
  exists w', handleAnswer env answer questionId callback w = (Ok tt, w').
Proof.
  intros Hopen. unfold handleAnswer, new_Db. rewrite Hopen.
  unfold bind at 1. unfold on_db at 1, Db.init, ret at 1.
  cbv beta iota. unfold try_catch. unfold bind at 1.
  match goal with
  | |- context [on_db (recordAttempt_any ?n ?q ?a) ?w0] =>
      destruct (on_db (recordAttempt_any n q a) w0) as [[[qn isCorrect]|e] w1]
  end.
  - destruct isCorrect.
    + unfold bind at 1, bind at 1, on_db, Streak.getCurrentStreak, bind, get,
        ret.
      cbv beta iota.
      match goal with
      | |- context [sendTelegramMessage env ?t ?w0] =>
          destruct (sendTelegramMessage_run env t w0) as (w' & Hsend & _)
      end.
      rewrite Hsend. now exists w'.
    + unfold bind at 1, ret at 1.
      match goal with
      | |- context [sendTelegramMessage env ?t ?w0] =>
          destruct (sendTelegramMessage_run env t w0) as (w' & Hsend & _)
      end.
      rewrite Hsend. now exists w'.
  - unfold bind at 1. rewrite console_error_run.
    match goal with
    | |- context [sendTelegramMessage env ?t ?w0] =>
        destruct (sendTelegramMessage_run env t w0) as (w' & Hsend & _)
    end.
    rewrite Hsend. now exists w'.
Qed.

(** X16.  The requests on which the response depends: with a payload and
    a message in the callback, the acknowledgment and the edit resolved and
    the database open, the handler answers 200 whether or not the attempt
    was recorded and the reply sent. *)
Lemma webhook_responds_when_calls_complete env callback d m w :
  data callback = Some d ->
  message callback = Some m ->
  (forall r, (match r with SendMessage _ _ => False | _ => True end) ->
             fetch_resolves env r = true) ->
  database_opens env = true ->
  fst (webhook env (Some callback) w) = Ok 200%Z.
Proof.
  intros Hdata Hmessage Hfetch Hopen.
  unfold webhook, destructure. rewrite Hdata.
  unfold bind at 1, ret at 1.
  destruct (decode d) as [answer questionId].
  unfold bind at 1, answerCallbackQuery, fetch at 1.
  rewrite (Hfetch (AnswerCallbackQuery (id callback)) I).
  unfold bind at 1, removeInlineKeyboard. rewrite Hmessage.
  unfold fetch at 1. rewrite (Hfetch (EditMessageText _ _ _) I).
  unfold bind at 1.
  match goal with
  | |- context [handleAnswer env answer questionId callback ?w0] =>
      destruct (handleAnswer_completes env answer questionId callback w0 Hopen)
        as (w' & Hrun)
  end.
  now rewrite Hrun.
Qed.

End WebhookResponse.

(** C9, on the code.  The handler answers 200 to a body without
    [callback_query].  It sends no response at all, its promise being
    rejected, for a callback without [data] ([callback.data.split] is a
    TypeError), for a callback without [message], and for a well-formed
    callback when the acknowledgment's [fetch] rejects: unlike
    [sendTelegramMessage] and the call of [recordAttempt], the
    acknowledgment and the edit are not inside a [try]. *)
Theorem webhook_can_send_no_response :
  fst (Bot.webhook Examples.env_ok None Examples.world1) = Ok 200%Z
  /\ fst (Bot.webhook Examples.env_ok
            (Some (Examples.callback_with (Some "answer:B:Q1")))
            Examples.world1)
     = Ok 200%Z
  /\ fst (Bot.webhook Examples.env_ok
            (Some (Examples.callback_with None)) Examples.world1)
     = Throw (TypeError
                "Cannot read properties of undefined (reading 'split')")
  /\ fst (Bot.webhook Examples.env_ok
            (Some Examples.callback_without_message) Examples.world1)
     = Throw (TypeError
                "Cannot read properties of undefined (reading 'chat')")
  /\ fst (Bot.webhook Examples.env_offline
            (Some (Examples.callback_with (Some "answer:B:Q1")))
            Examples.world1)
     = Throw FetchError
  /\ Db.attempts
       (Bot.file
          (snd (Bot.webhook Examples.env_offline
                  (Some (Examples.callback_with (Some "answer:B:Q1")))
                  Examples.world1)))
     = [].
Proof. repeat split; vm_compute; reflexivity. Qed.

(* ===================================================================== *)
(** ** Histories of the store *)
(* ===================================================================== *)

Section Histories.

Import History.

Lemma after_insertQuestion now q db :
  after db (InsertQuestion now q)
  = match Db.questions db !! Question.id q with
    | Some _ => db
    | None =>
        Db.mk (<[Question.id q := QuestionRow.mk q now]> (Db.questions db))
          (Db.attempts db) (Db.attempts_seq db)
    end.
Proof.
  unfold after, Db.insertQuestion, bind, get.
  now destruct (Db.questions db !! Question.id q).
Qed.

Lemma after_recordAttempt now questionId selectedAnswer db :
  after db (RecordAttempt now questionId selectedAnswer)
  = match Db.questions db !! questionId with
    | None => db
    | Some row =>
        Db.mk (Db.questions db)
          (Db.attempts db ++
             [QuestionAttempt.mk (Db.attempts_seq db + 1) questionId
                selectedAnswer (verdict row selectedAnswer) now])
          (Db.attempts_seq db + 1)
    end.
Proof.
  unfold after.
  destruct (Db.questions db !! questionId) as [row|] eqn:Hq.
  - pose proof (recordAttempt_known now questionId selectedAnswer db row Hq)
      as H.
    cbv zeta in H. now rewrite H.
  - now rewrite recordAttempt_unknown.
Qed.

Lemma after_keeps_rows db c id row :
  Db.questions db !! id = Some row ->
  Db.questions (after db c) !! id = Some row.
Proof.
  intros H. destruct c as [now q | id' | now qid sel].
  - rewrite after_insertQuestion.
    destruct (Db.questions db !! Question.id q) eqn:Hq; [exact H|]. simpl.
    rewrite lookup_insert_ne; [exact H|]. intros Heq. congruence.
  - exact H.
  - rewrite after_recordAttempt.
    now destruct (Db.questions db !! qid).
Qed.

Lemma after_extends_attempts db c :
  Db.attempts db `prefix_of` Db.attempts (after db c).
Proof.
  destruct c as [now q | id' | now qid sel].
  - rewrite after_insertQuestion.
    now destruct (Db.questions db !! Question.id q).
  - reflexivity.
  - rewrite after_recordAttempt.
    destruct (Db.questions db !! qid); [|reflexivity].
    simpl. now apply prefix_app_r.
Qed.

Lemma attempt_sound_mono db db' a :
  (forall id row, Db.questions db !! id = Some row ->
                  Db.questions db' !! id = Some row) ->
  (Db.attempts_seq db <= Db.attempts_seq db')%Z ->
  attempt_sound db a -> attempt_sound db' a.
Proof.
  intros Hrows Hseq [(row & Hrow & Hverdict) Hid]. split; [|lia].
  exists row. split; [now apply Hrows | exact Hverdict].
Qed.

Lemma after_consistent db c : consistent db -> consistent (after db c).
Proof.
  intros (Hkeys & Hsound & Hsorted & Hseq).
  destruct c as [now q | id' | now qid sel].
  - rewrite after_insertQuestion.
    destruct (Db.questions db !! Question.id q) eqn:Hq;
      [now repeat split|].
    repeat split; simpl; try assumption.
    + intros id row Hrow.
      destruct (decide (Question.id q = id)) as [<-|Hne].
      * rewrite lookup_insert_eq in Hrow. now injection Hrow as <-.
      * rewrite lookup_insert_ne in Hrow by exact Hne. now apply Hkeys.
    + eapply Forall_impl; [exact Hsound|]. intros a Ha.
      apply (attempt_sound_mono db); [|simpl; lia|exact Ha].
      intros id row Hrow. simpl. rewrite lookup_insert_ne; [exact Hrow|].
      intros Heq. congruence.
  - now repeat split.
  - rewrite after_recordAttempt.
    destruct (Db.questions db !! qid) as [row|] eqn:Hq;
      [|now repeat split].
    repeat split; simpl; try assumption; try lia.
    + apply Forall_app. split.
      * eapply Forall_impl; [exact Hsound|]. intros a Ha.
        apply (attempt_sound_mono db); [auto | simpl; lia | exact Ha].
      * constructor; [|constructor]. split; simpl; [|lia].
        exists row. split; [exact Hq | reflexivity].
    + intros i j a b Hij Ha Hb.
      assert (i < length (Db.attempts db))%nat as Hi.
      { apply lookup_lt_Some in Hb. rewrite length_app in Hb. simpl in Hb.
        lia. }
      rewrite lookup_app_l in Ha by exact Hi.
      destruct (decide (j < length (Db.attempts db))%nat) as [Hj|Hj].
      * rewrite lookup_app_l in Hb by exact Hj. eauto.
      * rewrite lookup_app_r in Hb by lia.
        destruct (j - length (Db.attempts db))%nat; [|discriminate].
        injection Hb as <-. simpl.
        apply list_elem_of_lookup_2 in Ha.
        rewrite Forall_forall in Hsound.
        destruct (Hsound a Ha) as [_ Hid]. lia.
Qed.

Lemma consistent_empty : consistent Db.empty.
Proof.
  repeat split; simpl.
  - intros id row H. now rewrite lookup_empty in H.
  - constructor.
  - intros i j a b _ H. now rewrite lookup_nil in H.
  - lia.
Qed.

Lemma replay_consistent db calls : consistent db -> consistent (replay db calls).
Proof.
  revert db. induction calls as [|c calls IH]; intros db H; [exact H|].
  simpl. apply IH. now apply after_consistent.
Qed.

End Histories.

(** X1.  Whatever methods of [Db] are called on a new database file, in
    whatever order and whether they return or throw, the store stays
    consistent: every question is filed under its own id; every attempt
    refers to a stored question and its [correct] column is 1 or 0 as its
    answer matches that question's [correct_answer], letter case apart; and
    the ids of the attempts are positive and increase from row to row. *)
Theorem store_stays_consistent (calls : list History.Call) :
  History.consistent (History.replay Db.empty calls).
Proof. apply replay_consistent, consistent_empty. Qed.

(** X2.  The methods of [Db] only ever add: after any sequence of calls on
    any database, the attempts that were there are still the first rows of
    [attempts], unchanged, and every question that was stored is still
    stored, unchanged, under its id. *)
Theorem store_is_append_only (db : Db.t) (calls : list History.Call) :
  Db.attempts db `prefix_of` Db.attempts (History.replay db calls)
  /\ (forall id row,
        Db.questions db !! id = Some row ->
        Db.questions (History.replay db calls) !! id = Some row).
Proof.
  revert db. induction calls as [|c calls IH]; intros db; simpl.
  - split; [reflexivity | auto].
  - destruct (IH (History.after db c)) as [Hattempts Hrows]. split.
    + etransitivity; [apply after_extends_attempts | exact Hattempts].
    + intros id row H. now apply Hrows, after_keeps_rows.
Qed.

(** X3.  [insertQuestion] with an id that is already stored throws the
    PRIMARY KEY violation and changes nothing: the row stored under that id
    is not replaced by the new question. *)
Theorem insertQuestion_rejects_stored_id
    (now : Z) (q : Question.t) (db : Db.t) (row : QuestionRow.t)
    (Hstored : Db.questions db !! Question.id q = Some row) :
  Db.insertQuestion now q db
  = (Throw (SqliteError "SQLITE_CONSTRAINT_PRIMARYKEY"), db)
  /\ fst (Db.getQuestion (Question.id q)
            (snd (Db.insertQuestion now q db)))
     = Ok (Some row).
Proof.
  rewrite (insertQuestion_duplicate now q db row Hstored).
  split; [reflexivity|]. cbn [snd]. rewrite getQuestion_run. cbn [fst].
  now rewrite Hstored.
Qed.

Lemma insertQuestion_rejects_stored_id_witness :
  Db.questions Examples.db1 !! Question.id Examples.question1
  = Some Examples.row1
  /\ Db.insertQuestion 3000 Examples.question1 Examples.db1
     = (Throw (SqliteError "SQLITE_CONSTRAINT_PRIMARYKEY"), Examples.db1)
  /\ fst (Db.getQuestion (Question.id Examples.question1)
            (snd (Db.insertQuestion 3000 Examples.question1 Examples.db1)))
     = Ok (Some Examples.row1).
Proof.
  split; [reflexivity|].
  apply (insertQuestion_rejects_stored_id
           3000 Examples.question1 Examples.db1 Examples.row1).
  reflexivity.
Defined.

(* ===================================================================== *)
(** ** The selection of questions *)
(* ===================================================================== *)

Section Selection.

Context {A : Type}.

Lemma swap_Permutation (array : list A) (rand index : nat) :
  Lodash.swap array rand index ≡ₚ array.
Proof.
  unfold Lodash.swap.
  destruct (array !! rand) as [value|] eqn:Hrand; [|reflexivity].
  destruct (array !! index) as [other|] eqn:Hindex; [|reflexivity].
  pose proof (lookup_lt_Some _ _ _ Hrand) as Hlt_rand.
  pose proof (lookup_lt_Some _ _ _ Hindex) as Hlt_index.
  apply Permutation_inj. split; [now rewrite !length_insert|].
  exists (fun k => if decide (k = rand) then index
                   else if decide (k = index) then rand else k).
  split.
  - intros a b.
    destruct (decide (a = rand)), (decide (a = index)),
             (decide (b = rand)), (decide (b = index)); congruence.
  - intros k.
    destruct (decide (k = index)) as [->|Hk_index].
    + rewrite list_lookup_insert_eq by now rewrite length_insert.
      destruct (decide (index = rand)) as [->|]; congruence.
    + rewrite list_lookup_insert_ne by congruence.
      destruct (decide (k = rand)) as [->|Hk_rand].
      * rewrite list_lookup_insert_eq by exact Hlt_rand. congruence.
      * now rewrite list_lookup_insert_ne by congruence.
Qed.

Lemma shuffle_from_Permutation (random : nat -> nat) (steps : nat) :
  forall (index : nat) (array : list A),
    Lodash.shuffle_from random steps index array ≡ₚ array.
Proof.
  induction steps as [|steps IH]; intros index array; simpl; [reflexivity|].
  rewrite IH. apply swap_Permutation.
Qed.

Lemma baseClamp_le (n : Z) (len : nat) : (Lodash.baseClamp n len <= len)%nat.
Proof. unfold Lodash.baseClamp. lia. Qed.

Lemma sampleSize_submseteq (random : nat -> nat) (array : list A) (n : Z) :
  Lodash.sampleSize random array n ⊆+ array.
Proof.
  unfold Lodash.sampleSize, Lodash.shuffleSelf.
  etransitivity; [apply submseteq_take|].
  apply Permutation_submseteq, shuffle_from_Permutation.
Qed.

Lemma sampleSize_length (random : nat -> nat) (array : list A) (n : Z) :
  length (Lodash.sampleSize random array n)
  = Lodash.baseClamp n (length array).
Proof.
  unfold Lodash.sampleSize, Lodash.shuffleSelf.
  rewrite length_take, (Permutation_length (shuffle_from_Permutation _ _ _ _)).
  pose proof (baseClamp_le n (length array)). lia.
Qed.

End Selection.

Lemma eligible_spec (q : FetchDb.LeetcodeQuestion) :
  FetchDb.eligible q = true
  <-> FetchDb.difficulty q = Some "Medium"
      /\ FetchDb.recentlyAttempted q = true.
Proof.
  unfold FetchDb.eligible. rewrite andb_true_iff.
  destruct (FetchDb.difficulty q) as [d|]; [|intuition discriminate].
  rewrite String.eqb_eq. intuition congruence.
Qed.

(** X4.  Whatever the random draws, [selectQuestions] returns only
    questions of difficulty "Medium" with [recentlyAttempted] set; it takes
    them from the list it was given, none more often than it occurs there;
    and it returns [count] of them, or all the eligible ones when there are
    fewer, or none when [count] is zero or negative. *)
Theorem selectQuestions_samples_eligible
    (random : nat -> nat) (questions : list FetchDb.LeetcodeQuestion)
    (count : Z) :
  let selected := FetchDb.selectQuestions random questions count in
  let eligible :=
    filter (fun q => FetchDb.eligible q = true) questions in
  Forall (fun q => FetchDb.difficulty q = Some "Medium"
                   /\ FetchDb.recentlyAttempted q = true) selected
  /\ selected ⊆+ eligible
  /\ selected ⊆+ questions
  /\ Z.of_nat (length selected)
     = Z.min (Z.max count 0) (Z.of_nat (length eligible)).
Proof.
  intros selected eligible.
  assert (selected ⊆+ eligible) as Hsub by apply sampleSize_submseteq.
  split; [|split; [exact Hsub|split]].
  - apply Forall_forall. intros q Hq.
    apply (elem_of_submseteq _ _ _ Hq) in Hsub.
    apply list_elem_of_filter in Hsub as [Hel _].
    now apply eligible_spec.
  - etransitivity; [exact Hsub|].
    apply sublist_submseteq, sublist_filter.
  - unfold selected, FetchDb.selectQuestions.
    rewrite sampleSize_length. fold eligible.
    unfold Lodash.baseClamp. lia.
Qed.

(* ===================================================================== *)
(** ** The calls of the synthesizer *)
(* ===================================================================== *)

Section SynthesizerCalls.

Import FetchDb.

Lemma generateMcqs_loop_calls (sv : Services)
    (questions : list LeetcodeQuestion) :
  forall (acc : list McqQuestion) (c : Calls) (mcqs : list McqQuestion)
         (c' : Calls),
    generateMcqs_loop sv questions acc c = (Ok mcqs, c') ->
    parse_calls c' = (parse_calls c + length questions)%nat
    /\ (nanoid_calls c' + length acc = nanoid_calls c + length mcqs)%nat
    /\ (length mcqs <= length acc + length questions)%nat.
Proof.
  induction questions as [|q rest IH]; intros acc c mcqs c' Hrun.
  - injection Hrun as <- <-. simpl. lia.
  - cbn [generateMcqs_loop] in Hrun. unfold bind at 1 in Hrun.
    unfold call_messages_parse at 1 in Hrun.
    destruct (messages_parse sv (parse_calls c) (prompt q))
      as [[p|]|e]; [| |discriminate].
    + unfold bind at 1, call_nanoid at 1 in Hrun.
      apply IH in Hrun as (Hparse & Hids & Hlen).
      cbn [parse_calls nanoid_calls] in *.
      rewrite length_app in *. simpl in *. lia.
    + apply IH in Hrun as (Hparse & Hids & Hlen).
      cbn [parse_calls nanoid_calls] in *. simpl. lia.
Qed.

Lemma generateMcqs_loop_abort (sv : Services)
    (questions : list LeetcodeQuestion) :
  forall (i : nat) (q : LeetcodeQuestion) (e : Exn)
         (acc : list McqQuestion) (c : Calls),
    questions !! i = Some q ->
    (forall k qk, (k < i)%nat -> questions !! k = Some qk ->
                  exists o, messages_parse sv (parse_calls c + k) (prompt qk)
                            = Ok o) ->
    messages_parse sv (parse_calls c + i) (prompt q) = Throw e ->
    exists c',
      generateMcqs_loop sv questions acc c = (Throw e, c')
      /\ parse_calls c' = (parse_calls c + i + 1)%nat.
Proof.
  induction questions as [|q0 rest IH]; intros i q e acc c Hq Hbefore Hthrow;
    [discriminate|].
  cbn [generateMcqs_loop]. unfold bind at 1.
  unfold call_messages_parse at 1.
  destruct i as [|i].
  - injection Hq as ->. rewrite Nat.add_0_r in Hthrow. rewrite Hthrow.
    eexists. split; [reflexivity|]. simpl. lia.
  - destruct (Hbefore 0%nat q0 ltac:(lia) eq_refl) as [o Ho].
    rewrite Nat.add_0_r in Ho. rewrite Ho.
    assert (forall c1 : Calls,
               parse_calls c1 = S (parse_calls c) ->
               forall acc1,
               exists c',
                 generateMcqs_loop sv rest acc1 c1 = (Throw e, c')
                 /\ parse_calls c' = (parse_calls c + S i + 1)%nat) as Hrest.
    { intros c1 Hc1 acc1.
      destruct (IH i q e acc1 c1 Hq) as (c' & Hrun & Hcalls).
      - intros k qk Hk Hqk. rewrite Hc1.
        replace (S (parse_calls c) + k)%nat with (parse_calls c + S k)%nat
          by lia.
        apply Hbefore; [lia | exact Hqk].
      - rewrite Hc1.
        replace (S (parse_calls c) + i)%nat with (parse_calls c + S i)%nat
          by lia.
        exact Hthrow.
      - exists c'. split; [exact Hrun|]. rewrite Hcalls, Hc1. lia. }
    destruct o as [p|].
    + unfold bind at 1, call_nanoid at 1. apply Hrest. reflexivity.
    + apply Hrest. reflexivity.
Qed.

End SynthesizerCalls.

(** X5.  [generateMcqs] has no [try]: when the call for one question
    rejects, the calls before it having returned, [generateMcqs] rejects
    with the same error and returns no MCQ at all, and the questions after
    it are never sent to the generation service. *)
Theorem generateMcqs_aborts_at_first_rejection
    (sv : FetchDb.Services) (questions : list FetchDb.LeetcodeQuestion)
    (c : FetchDb.Calls) (i : nat) (q : FetchDb.LeetcodeQuestion) (e : Exn)
    (Hq : questions !! i = Some q)
    (Hbefore :
       forall k qk, (k < i)%nat -> questions !! k = Some qk ->
         exists o,
           FetchDb.messages_parse sv (FetchDb.parse_calls c + k)
             (FetchDb.prompt qk) = Ok o)
    (Hthrow :
       FetchDb.messages_parse sv (FetchDb.parse_calls c + i)
         (FetchDb.prompt q) = Throw e) :
  exists c' : FetchDb.Calls,
    FetchDb.generateMcqs sv questions c = (Throw e, c')
    /\ FetchDb.parse_calls c' = (FetchDb.parse_calls c + i + 1)%nat.
Proof.
  now apply (generateMcqs_loop_abort sv questions i q e [] c).
Qed.

Lemma generateMcqs_aborts_at_first_rejection_witness :
  [Examples.two_sum; Examples.two_sum; Examples.two_sum] !! 1%nat
  = Some Examples.two_sum
  /\ (forall k qk, (k < 1)%nat ->
        [Examples.two_sum; Examples.two_sum; Examples.two_sum] !! k = Some qk ->
        exists o,
          FetchDb.messages_parse Examples.services_second_fails
            (FetchDb.parse_calls Examples.no_calls + k) (FetchDb.prompt qk)
          = Ok o)
  /\ FetchDb.messages_parse Examples.services_second_fails
       (FetchDb.parse_calls Examples.no_calls + 1)
       (FetchDb.prompt Examples.two_sum)
     = Throw FetchError
  /\ exists c' : FetchDb.Calls,
       FetchDb.generateMcqs Examples.services_second_fails
         [Examples.two_sum; Examples.two_sum; Examples.two_sum]
         Examples.no_calls
       = (Throw FetchError, c')
       /\ FetchDb.parse_calls c'
          = (FetchDb.parse_calls Examples.no_calls + 1 + 1)%nat.
Proof.
  assert (forall k qk, (k < 1)%nat ->
            [Examples.two_sum; Examples.two_sum; Examples.two_sum] !! k
            = Some qk ->
            exists o,
              FetchDb.messages_parse Examples.services_second_fails
                (FetchDb.parse_calls Examples.no_calls + k)
                (FetchDb.prompt qk)
              = Ok o) as Hbefore.
  { intros k qk Hk _. destruct k as [|k]; [|lia].
    eexists. reflexivity. }
  split; [reflexivity|]. split; [exact Hbefore|]. split; [reflexivity|].
  apply (generateMcqs_aborts_at_first_rejection
           Examples.services_second_fails
           [Examples.two_sum; Examples.two_sum; Examples.two_sum]
           Examples.no_calls 1 Examples.two_sum FetchError);
    [reflexivity | exact Hbefore | reflexivity].
Defined.

(** X6.  When [generateMcqs] returns, it has called the generation service
    once for every question and drawn one id for every MCQ it returns, and
    it returns at most one MCQ per question; if the id generator never
    repeats itself, the MCQs have pairwise different ids. *)
Theorem generateMcqs_one_call_per_question
    (sv : FetchDb.Services) (questions : list FetchDb.LeetcodeQuestion)
    (c c' : FetchDb.Calls) (mcqs : list FetchDb.McqQuestion)
    (Hrun : FetchDb.generateMcqs sv questions c = (Ok mcqs, c')) :
  FetchDb.parse_calls c' = (FetchDb.parse_calls c + length questions)%nat
  /\ FetchDb.nanoid_calls c' = (FetchDb.nanoid_calls c + length mcqs)%nat
  /\ (length mcqs <= length questions)%nat
  /\ (Inj (=) (=) (FetchDb.nanoid sv) -> NoDup (map FetchDb.id mcqs)).
Proof.
  pose proof (generateMcqs_loop_calls sv questions [] c mcqs c' Hrun)
    as (Hparse & Hids & Hlen).
  simpl in Hids, Hlen.
  split; [exact Hparse|]. split; [lia|]. split; [exact Hlen|].
  intros Hinj.
  apply generateMcqs_loop_spec in Hrun as (outputs & new & _ & -> & _ & Hnew).
  simpl. rewrite Hnew. apply (NoDup_fmap_2 _), NoDup_seq.
Qed.

Lemma generateMcqs_one_call_per_question_witness :
  FetchDb.generateMcqs Examples.services_a [Examples.two_sum] Examples.no_calls
  = (Ok [Examples.mcq_a],
     {| FetchDb.parse_calls := 1; FetchDb.nanoid_calls := 1 |})
  /\ FetchDb.parse_calls
       {| FetchDb.parse_calls := 1; FetchDb.nanoid_calls := 1 |}
     = (FetchDb.parse_calls Examples.no_calls + length [Examples.two_sum])%nat
  /\ FetchDb.nanoid_calls
       {| FetchDb.parse_calls := 1; FetchDb.nanoid_calls := 1 |}
     = (FetchDb.nanoid_calls Examples.no_calls + length [Examples.mcq_a])%nat
  /\ (length [Examples.mcq_a] <= length [Examples.two_sum])%nat
  /\ (Inj (=) (=) (FetchDb.nanoid Examples.services_a) ->
      NoDup (map FetchDb.id [Examples.mcq_a])).
Proof.
  split; [reflexivity|].
  apply (generateMcqs_one_call_per_question
           Examples.services_a [Examples.two_sum] Examples.no_calls
           {| FetchDb.parse_calls := 1; FetchDb.nanoid_calls := 1 |}).
  reflexivity.
Defined.

(* ===================================================================== *)
(** ** Delivery *)
(* ===================================================================== *)

Section Delivery.

Import FetchDb.

Lemma send_all_unconfigured env calls :
  negb (JsString.truthy (TELEGRAM_BOT_TOKEN env))
  || negb (JsString.truthy (TELEGRAM_CHAT_ID env)) = true ->
  forall w,
    send_all env calls w
    = (Ok tt,
       {| console :=
            console w
            ++ replicate (length calls)
                 ("Telegram bot token or chat ID is not defined.", None);
          telegram := telegram w;
          notion := notion w |}).
Proof.
  intros Hmissing. induction calls as [|[message keyboard] calls IH];
    intros w; simpl.
  - rewrite app_nil_r. now destruct w.
  - unfold bind, sendTelegramMessage. rewrite Hmissing.
    unfold console_error. rewrite IH. simpl.
    now rewrite <- app_assoc.
Qed.

Lemma send_all_configured env calls :
  negb (JsString.truthy (TELEGRAM_BOT_TOKEN env))
  || negb (JsString.truthy (TELEGRAM_CHAT_ID env)) = false ->
  forall w,
    send_all env calls w
    = (Ok tt,
       {| console :=
            console w
            ++ map (fun _ =>
                      ("Error sending message to Telegram:", Some FetchError))
                 (filter (fun call => fetch_resolves env (request_of env call)
                                      = false) calls);
          telegram := telegram w ++ map (request_of env) calls;
          notion := notion w |}).
Proof.
  intros Hset. induction calls as [|[message keyboard] calls IH];
    intros w; simpl.
  - rewrite !app_nil_r. now destruct w.
  - unfold bind, sendTelegramMessage. rewrite Hset.
    unfold try_catch, fetch, console_error.
    rewrite filter_cons. unfold request_of at 1. simpl.
    destruct (fetch_resolves env _) eqn:Hfetch.
    + rewrite decide_False by discriminate.
      rewrite IH. simpl. now rewrite <- !app_assoc.
    + rewrite decide_True by reflexivity.
      rewrite IH. simpl. now rewrite <- !app_assoc.
Qed.

Lemma sendToTelegram_lookup mcqs :
  forall k mcq,
    mcqs !! k = Some mcq ->
    sendToTelegram mcqs !! (2 * k)%nat = Some (originalQuestion mcq, None)
    /\ sendToTelegram mcqs !! (2 * k + 1)%nat
       = Some (questionText mcq, Some (inlineKeyboard mcq)).
Proof.
  induction mcqs as [|m mcqs IH]; intros k mcq Hk; [discriminate|].
  destruct k as [|k].
  - injection Hk as ->. now split.
  - simpl in Hk. destruct (IH k mcq Hk) as [Hfirst Hsecond].
    replace (2 * S k)%nat with (S (S (2 * k))) by lia.
    replace (S (S (2 * k)) + 1)%nat with (S (S (2 * k + 1))) by lia.
    now split.
Qed.

Lemma sendToTelegram_length mcqs :
  length (sendToTelegram mcqs) = (2 * length mcqs)%nat.
Proof. induction mcqs as [|m mcqs IH]; simpl; lia. Qed.

End Delivery.

(** X7.  [sendToTelegram] never rejects, and a message that cannot be sent
    does not stop the messages after it.  With the bot token and the chat
    id set, it sends every message of every question in order, whether or
    not the sends before it went through, and logs one line for each send
    that failed.  With either of them missing or empty it sends nothing and
    logs one line for each message.  It never asks anything of Notion. *)
Theorem sendToTelegram_never_rejects
    (env : FetchDb.Env) (mcqs : list FetchDb.McqQuestion) (w : FetchDb.Net) :
  let calls := FetchDb.sendToTelegram mcqs in
  let request call :=
    {| FetchDb.chat_id := FetchDb.TELEGRAM_CHAT_ID env;
       FetchDb.request_text := fst call;
       FetchDb.reply_markup := snd call |} in
  let done := FetchDb.sendToTelegram_run env mcqs w in
  fst done = Ok tt
  /\ FetchDb.notion (snd done) = FetchDb.notion w
  /\ if JsString.truthy (FetchDb.TELEGRAM_BOT_TOKEN env)
        && JsString.truthy (FetchDb.TELEGRAM_CHAT_ID env)
     then FetchDb.telegram (snd done)
          = FetchDb.telegram w ++ map request calls
          /\ FetchDb.console (snd done)
             = FetchDb.console w
               ++ map (fun _ => ("Error sending message to Telegram:",
                                 Some FetchError))
                    (filter (fun call =>
                               FetchDb.fetch_resolves env (request call)
                               = false) calls)
     else FetchDb.telegram (snd done) = FetchDb.telegram w
          /\ FetchDb.console (snd done)
             = FetchDb.console w
               ++ replicate (2 * length mcqs)
                    ("Telegram bot token or chat ID is not defined.", None).
Proof.
  cbv zeta. unfold FetchDb.sendToTelegram_run.
  destruct (JsString.truthy (FetchDb.TELEGRAM_BOT_TOKEN env)) eqn:Htoken,
           (JsString.truthy (FetchDb.TELEGRAM_CHAT_ID env)) eqn:Hchat;
    simpl.
  - rewrite send_all_configured by now rewrite Htoken, Hchat.
    simpl. auto.
  - rewrite send_all_unconfigured by now rewrite Htoken, Hchat.
    simpl. now rewrite sendToTelegram_length.
  - rewrite send_all_unconfigured by now rewrite Htoken.
    simpl. now rewrite sendToTelegram_length.
  - rewrite send_all_unconfigured by now rewrite Htoken.
    simpl. now rewrite sendToTelegram_length.
Qed.

(** X8.  For the question at position k of the batch, [sendToTelegram]
    sends the context message, without keyboard, as message 2k and the
    question with its keyboard as message 2k + 1.  The keyboard has one
    row for each option, in the order of the options, and the row of the
    option at position idx holds the single button labelled with the
    character of code 65 + idx. *)
Theorem sendToTelegram_context_then_question
    (mcqs : list FetchDb.McqQuestion) (k : nat) (mcq : FetchDb.McqQuestion)
    (Hk : mcqs !! k = Some mcq) :
  length (FetchDb.sendToTelegram mcqs) = (2 * length mcqs)%nat
  /\ FetchDb.sendToTelegram mcqs !! (2 * k)%nat
     = Some (FetchDb.originalQuestion mcq, None)
  /\ FetchDb.sendToTelegram mcqs !! (2 * k + 1)%nat
     = Some (FetchDb.questionText mcq, Some (FetchDb.inlineKeyboard mcq))
  /\ length (FetchDb.inlineKeyboard mcq)
     = length (FetchDb.options (FetchDb.parsed mcq))
  /\ (forall idx row,
        FetchDb.inlineKeyboard mcq !! idx = Some row ->
        (idx < length (FetchDb.options (FetchDb.parsed mcq)))%nat
        /\ map FetchDb.text row
           = [JsString.fromCharCode (65 + Z.of_nat idx)]).
Proof.
  destruct (sendToTelegram_lookup mcqs k mcq Hk) as [Hfirst Hsecond].
  split; [apply sendToTelegram_length|].
  split; [exact Hfirst|]. split; [exact Hsecond|].
  unfold FetchDb.inlineKeyboard. split; [apply length_imap|].
  intros idx row Hrow. rewrite list_lookup_imap in Hrow.
  destruct (FetchDb.options (FetchDb.parsed mcq) !! idx) as [opt|] eqn:Hopt;
    [|discriminate].
  injection Hrow as <-. split; [|reflexivity].
  now apply lookup_lt_Some in Hopt.
Qed.

Lemma sendToTelegram_context_then_question_witness :
  [Examples.mcq_a] !! 0%nat = Some Examples.mcq_a
  /\ length (FetchDb.sendToTelegram [Examples.mcq_a])
     = (2 * length [Examples.mcq_a])%nat
  /\ FetchDb.sendToTelegram [Examples.mcq_a] !! (2 * 0)%nat
     = Some (FetchDb.originalQuestion Examples.mcq_a, None)
  /\ FetchDb.sendToTelegram [Examples.mcq_a] !! (2 * 0 + 1)%nat
     = Some (FetchDb.questionText Examples.mcq_a,
             Some (FetchDb.inlineKeyboard Examples.mcq_a))
  /\ length (FetchDb.inlineKeyboard Examples.mcq_a)
     = length (FetchDb.options (FetchDb.parsed Examples.mcq_a))
  /\ (forall idx row,
        FetchDb.inlineKeyboard Examples.mcq_a !! idx = Some row ->
        (idx < length (FetchDb.options (FetchDb.parsed Examples.mcq_a)))%nat
        /\ map FetchDb.text row
           = [JsString.fromCharCode (65 + Z.of_nat idx)]).
Proof.
  split; [reflexivity|].
  apply (sendToTelegram_context_then_question [Examples.mcq_a] 0 Examples.mcq_a).
  reflexivity.
Defined.

(** X9.  What [sendToTelegram] sends for a question does not depend on
    which options are marked correct: two questions with the same id, the
    same texts and the same option contents in the same order give the same
    messages and the same keyboards. *)
Theorem sendToTelegram_hides_correct_flags
    (m1 m2 : FetchDb.McqQuestion)
    (Hid : FetchDb.id m1 = FetchDb.id m2)
    (Hquestion :
       FetchDb.question (FetchDb.parsed m1)
       = FetchDb.question (FetchDb.parsed m2))
    (Hdescription :
       FetchDb.leetcode_description (FetchDb.parsed m1)
       = FetchDb.leetcode_description (FetchDb.parsed m2))
    (Hcontents :
       map FetchDb.content (FetchDb.options (FetchDb.parsed m1))
       = map FetchDb.content (FetchDb.options (FetchDb.parsed m2))) :
  FetchDb.sendToTelegram [m1] = FetchDb.sendToTelegram [m2].
Proof.
  assert (forall (B : Type) (g : nat -> string -> B) (m : FetchDb.McqQuestion),
             imap (fun idx opt => g idx (FetchDb.content opt))
                  (FetchDb.options (FetchDb.parsed m))
             = imap g (map FetchDb.content
                         (FetchDb.options (FetchDb.parsed m)))) as Himap.
  { intros B g m. now rewrite imap_fmap. }
  simpl. unfold FetchDb.originalQuestion, FetchDb.questionText,
    FetchDb.inlineKeyboard.
  rewrite Hdescription, Hquestion, Hid.
  rewrite (Himap _ (fun idx c =>
                      JsString.fromCharCode (65 + Z.of_nat idx)
                      +:+ ". " +:+ c) m1),
          (Himap _ (fun idx c =>
                      JsString.fromCharCode (65 + Z.of_nat idx)
                      +:+ ". " +:+ c) m2).
  rewrite (Himap _ (fun idx (_ : string) =>
                      [{| FetchDb.text :=
                            JsString.fromCharCode (65 + Z.of_nat idx);
                          FetchDb.callbackData :=
                            "answer:"
                            +:+ JsString.fromCharCode (65 + Z.of_nat idx)
                            +:+ ":" +:+ FetchDb.id m2 |}]) m1),
          (Himap _ (fun idx (_ : string) =>
                      [{| FetchDb.text :=
                            JsString.fromCharCode (65 + Z.of_nat idx);
                          FetchDb.callbackData :=
                            "answer:"
                            +:+ JsString.fromCharCode (65 + Z.of_nat idx)
                            +:+ ":" +:+ FetchDb.id m2 |}]) m2).
  now rewrite Hcontents.
Qed.

Lemma sendToTelegram_hides_correct_flags_witness :
  FetchDb.id Examples.mcq_a = FetchDb.id Examples.mcq_c
  /\ FetchDb.question (FetchDb.parsed Examples.mcq_a)
     = FetchDb.question (FetchDb.parsed Examples.mcq_c)
  /\ FetchDb.leetcode_description (FetchDb.parsed Examples.mcq_a)
     = FetchDb.leetcode_description (FetchDb.parsed Examples.mcq_c)
  /\ map FetchDb.content (FetchDb.options (FetchDb.parsed Examples.mcq_a))
     = map FetchDb.content (FetchDb.options (FetchDb.parsed Examples.mcq_c))
  /\ FetchDb.sendToTelegram [Examples.mcq_a]
     = FetchDb.sendToTelegram [Examples.mcq_c].
Proof.
  repeat (split; [reflexivity|]).
  apply (sendToTelegram_hides_correct_flags Examples.mcq_a Examples.mcq_c);
    reflexivity.
Defined.

Section Notion.

Import FetchDb.

Lemma saveToNotion_run env mcqs :
  forall w,
    saveToNotion env mcqs w
    = (Ok tt,
       {| console :=
            console w
            ++ map (fun _ => ("Error saving to Notion:", Some FetchError))
                 (filter (fun mcq =>
                            pages_create_resolves env (notion_page env mcq)
                            = false) mcqs);
          telegram := telegram w;
          notion := notion w ++ map (notion_page env) mcqs |}).
Proof.
  induction mcqs as [|mcq mcqs IH]; intros w; simpl.
  - rewrite !app_nil_r. now destruct w.
  - unfold bind, try_catch, pages_create, console_error.
    rewrite filter_cons.
    destruct (pages_create_resolves env (notion_page env mcq)) eqn:Hcreate.
    + rewrite decide_False by discriminate.
      rewrite IH. simpl. now rewrite <- !app_assoc.
    + rewrite decide_True by reflexivity.
      rewrite IH. simpl. now rewrite <- !app_assoc.
Qed.

End Notion.

(** X10.  [saveToNotion] never rejects: it asks Notion for one page per
    MCQ, in order, whether or not the pages before were created, logs one
    line for each page that could not be created, and sends nothing to
    Telegram.  The page of an MCQ carries its question, its description and
    its explanation, and one line of options per option. *)
Theorem saveToNotion_never_rejects
    (env : FetchDb.Env) (mcqs : list FetchDb.McqParsed) (w : FetchDb.Net) :
  let done := FetchDb.saveToNotion env mcqs w in
  fst done = Ok tt
  /\ FetchDb.notion (snd done)
     = FetchDb.notion w ++ map (FetchDb.notion_page env) mcqs
  /\ FetchDb.console (snd done)
     = FetchDb.console w
       ++ map (fun _ => ("Error saving to Notion:", Some FetchError))
            (filter (fun mcq =>
                       FetchDb.pages_create_resolves env
                         (FetchDb.notion_page env mcq) = false) mcqs)
  /\ FetchDb.telegram (snd done) = FetchDb.telegram w
  /\ Forall (fun mcq =>
               FetchDb.Name (FetchDb.notion_page env mcq)
               = FetchDb.question mcq
               /\ FetchDb.Description (FetchDb.notion_page env mcq)
                  = FetchDb.leetcode_description mcq
               /\ FetchDb.Explanation (FetchDb.notion_page env mcq)
                  = FetchDb.explanation mcq) mcqs.
Proof.
  cbv zeta. rewrite saveToNotion_run. simpl.
  repeat split. apply Forall_forall. now intros mcq _.
Qed.

(* ===================================================================== *)
(** ** Saving a batch *)
(* ===================================================================== *)

Section SaveToDb.

Import FetchDb.

Lemma saveToDb_cons DATABASE_ID now mcq rest db :
  saveToDb DATABASE_ID now (mcq :: rest) db
  = match Db.insertQuestion now (question_of_mcq DATABASE_ID mcq) db with
    | (Ok _, db1) => saveToDb DATABASE_ID now rest db1
    | (Throw e, db1) => (Throw e, db1)
    end.
Proof. reflexivity. Qed.

Lemma saveToDb_fresh DATABASE_ID now mcqs :
  forall db,
    NoDup (map id mcqs) ->
    (forall mcq, mcq ∈ mcqs -> Db.questions db !! id mcq = None) ->
    exists db',
      saveToDb DATABASE_ID now mcqs db = (Ok tt, db')
      /\ Db.attempts db' = Db.attempts db
      /\ Db.attempts_seq db' = Db.attempts_seq db
      /\ (forall mcq, mcq ∈ mcqs ->
            Db.questions db' !! id mcq
            = Some (QuestionRow.mk (question_of_mcq DATABASE_ID mcq) now))
      /\ (forall i, i ∉ map id mcqs ->
            Db.questions db' !! i = Db.questions db !! i).
Proof.
  induction mcqs as [|mcq rest IH]; intros db Hnodup Hfresh.
  - exists db. repeat split; auto. intros mcq H. now apply elem_of_nil in H.
  - simpl in Hnodup. apply NoDup_cons in Hnodup as [Hnotin Hnodup].
    rewrite saveToDb_cons.
    rewrite insertQuestion_fresh
      by (simpl; apply Hfresh; now left).
    set (db1 := Db.mk _ _ _).
    destruct (IH db1 Hnodup) as (db' & Hrun & Hatt & Hseq & Hrows & Hother).
    { intros m Hm. subst db1. simpl.
      rewrite lookup_insert_ne; [apply Hfresh; now right|].
      intros Heq. apply Hnotin. rewrite Heq.
      now apply list_elem_of_fmap_2. }
    exists db'. split; [exact Hrun|]. split; [exact Hatt|].
    split; [exact Hseq|]. split.
    + intros m Hm. apply elem_of_cons in Hm as [->|Hm]; [|now apply Hrows].
      rewrite Hother by exact Hnotin. subst db1. simpl.
      now rewrite lookup_insert_eq.
    + intros i Hi. apply not_elem_of_cons in Hi as [Hne Hi].
      rewrite Hother by exact Hi. subst db1. simpl.
      now rewrite lookup_insert_ne by congruence.
Qed.

Lemma saveToDb_stops DATABASE_ID now pre mcq post :
  forall db,
    fst (saveToDb DATABASE_ID now pre db) = Ok tt ->
    is_Some (Db.questions (snd (saveToDb DATABASE_ID now pre db)) !! id mcq) ->
    saveToDb DATABASE_ID now (pre ++ mcq :: post) db
    = (Throw (SqliteError "SQLITE_CONSTRAINT_PRIMARYKEY"),
       snd (saveToDb DATABASE_ID now pre db)).
Proof.
  induction pre as [|p pre IH]; intros db Hok [row Hrow].
  - simpl in Hrow. simpl app. rewrite saveToDb_cons.
    now rewrite (insertQuestion_duplicate now
                   (question_of_mcq DATABASE_ID mcq) db row Hrow).
  - simpl app. rewrite saveToDb_cons in Hok, Hrow.
    rewrite (saveToDb_cons _ _ p (pre ++ mcq :: post)),
            (saveToDb_cons _ _ p pre).
    destruct (Db.insertQuestion now (question_of_mcq DATABASE_ID p) db)
      as [[[]|e] db1]; [|discriminate].
    apply IH; [exact Hok | now exists row].
Qed.

End SaveToDb.

(** X11.  [saveToDb] of questions with pairwise different ids, none of
    them in the store yet, stores them all: each can then be fetched by its
    id, with the fields [saveToDb] derives from it; the questions stored
    before are as they were, and the attempts are untouched. *)
Theorem saveToDb_stores_fresh_batch
    (DATABASE_ID : option string) (now : Z)
    (mcqs : list FetchDb.McqQuestion) (db : Db.t)
    (Hdistinct : NoDup (map FetchDb.id mcqs))
    (Hfresh : forall mcq, mcq ∈ mcqs ->
                          Db.questions db !! FetchDb.id mcq = None) :
  exists db' : Db.t,
    FetchDb.saveToDb DATABASE_ID now mcqs db = (Ok tt, db')
    /\ Db.attempts db' = Db.attempts db
    /\ (forall mcq, mcq ∈ mcqs ->
          fst (Db.getQuestion (FetchDb.id mcq) db')
          = Ok (Some (QuestionRow.mk
                        (FetchDb.question_of_mcq DATABASE_ID mcq) now)))
    /\ (forall i row, Db.questions db !! i = Some row ->
                      Db.questions db' !! i = Some row).
Proof.
  destruct (saveToDb_fresh DATABASE_ID now mcqs db Hdistinct Hfresh)
    as (db' & Hrun & Hatt & _ & Hrows & Hother).
  exists db'. split; [exact Hrun|]. split; [exact Hatt|]. split.
  - intros mcq Hm. rewrite getQuestion_run. simpl. f_equal.
    now apply Hrows.
  - intros i row Hrow. rewrite Hother; [exact Hrow|].
    intros Hin. apply list_elem_of_fmap in Hin as (mcq & -> & Hm).
    rewrite (Hfresh mcq Hm) in Hrow. discriminate.
Qed.

Lemma saveToDb_stores_fresh_batch_witness :
  NoDup (map FetchDb.id [Examples.mcq_a])
  /\ (forall mcq, mcq ∈ [Examples.mcq_a] ->
                  Db.questions Db.empty !! FetchDb.id mcq = None)
  /\ exists db' : Db.t,
       FetchDb.saveToDb None 1000 [Examples.mcq_a] Db.empty = (Ok tt, db')
       /\ Db.attempts db' = Db.attempts Db.empty
       /\ (forall mcq, mcq ∈ [Examples.mcq_a] ->
             fst (Db.getQuestion (FetchDb.id mcq) db')
             = Ok (Some (QuestionRow.mk
                           (FetchDb.question_of_mcq None mcq) 1000)))
       /\ (forall i row, Db.questions Db.empty !! i = Some row ->
                         Db.questions db' !! i = Some row).
Proof.
  assert (NoDup (map FetchDb.id [Examples.mcq_a])) as Hdistinct
    by (apply NoDup_singleton).
  assert (forall mcq, mcq ∈ [Examples.mcq_a] ->
                      Db.questions Db.empty !! FetchDb.id mcq = None)
    as Hfresh by (intros mcq _; reflexivity).
  split; [exact Hdistinct|]. split; [exact Hfresh|].
  exact (saveToDb_stores_fresh_batch None 1000 [Examples.mcq_a] Db.empty
           Hdistinct Hfresh).
Defined.

(** X12.  [saveToDb] stops at the first question whose id is taken.  When
    the questions before it have been stored and its id is by then in the
    store (from before, or as the id of an earlier question of the batch),
    [saveToDb] throws the PRIMARY KEY violation and the store is left as it
    was after those earlier questions: the question itself and all the
    questions after it are not stored. *)
Theorem saveToDb_stops_at_taken_id
    (DATABASE_ID : option string) (now : Z)
    (pre post : list FetchDb.McqQuestion) (mcq : FetchDb.McqQuestion)
    (db : Db.t)
    (Hpre : fst (FetchDb.saveToDb DATABASE_ID now pre db) = Ok tt)
    (Htaken :
       is_Some (Db.questions (snd (FetchDb.saveToDb DATABASE_ID now pre db))
                  !! FetchDb.id mcq)) :
  FetchDb.saveToDb DATABASE_ID now (pre ++ mcq :: post) db
  = (Throw (SqliteError "SQLITE_CONSTRAINT_PRIMARYKEY"),
     snd (FetchDb.saveToDb DATABASE_ID now pre db)).
Proof. now apply saveToDb_stops. Qed.

Lemma saveToDb_stops_at_taken_id_witness :
  fst (FetchDb.saveToDb None 1000 [Examples.mcq_a] Db.empty) = Ok tt
  /\ is_Some (Db.questions
                (snd (FetchDb.saveToDb None 1000 [Examples.mcq_a] Db.empty))
                !! FetchDb.id Examples.mcq_b)
  /\ FetchDb.saveToDb None 1000
       ([Examples.mcq_a] ++ Examples.mcq_b :: [Examples.mcq_c]) Db.empty
     = (Throw (SqliteError "SQLITE_CONSTRAINT_PRIMARYKEY"),
        snd (FetchDb.saveToDb None 1000 [Examples.mcq_a] Db.empty)).
Proof.
  assert (is_Some
            (Db.questions
               (snd (FetchDb.saveToDb None 1000 [Examples.mcq_a] Db.empty))
               !! FetchDb.id Examples.mcq_b)) as Htaken
    by (eexists; reflexivity).
  split; [reflexivity|]. split; [exact Htaken|].
  apply (saveToDb_stops_at_taken_id None 1000 [Examples.mcq_a]
           [Examples.mcq_c] Examples.mcq_b Db.empty);
    [reflexivity | exact Htaken].
Defined.

(* ===================================================================== *)
(** ** From the button to the verdict *)
(* ===================================================================== *)

Section ButtonVerdict.

Import JsString.

Lemma label_code (n : Z) :
  (0 <= n < 256)%Z ->
  N_of_ascii (ascii_of_N (Z.to_N (n mod 65536))) = Z.to_N n.
Proof.
  intros Hn. rewrite Z.mod_small by lia. apply N_ascii_embedding. lia.
Qed.

(** Among the characters of code 64 to 96 ('@', the capitals, and the five
    signs after 'Z') no two are the same up to letter case. *)
Lemma label_verdict (i j : Z) :
  (64 <= i <= 96)%Z -> (64 <= j <= 96)%Z ->
  toLowerCase (fromCharCode i) = toLowerCase (fromCharCode j) <-> i = j.
Proof.
  intros Hi Hj. split; [|now intros ->].
  unfold fromCharCode. simpl. intros H. injection H as H.
  apply lower_unit_same_letter in H.
  pose proof (label_code i ltac:(lia)) as Hci.
  pose proof (label_code j ltac:(lia)) as Hcj.
  destruct H as [H | [[Hup Hc] | [Hup Hc]]].
  - apply (f_equal N_of_ascii) in H. rewrite Hci, Hcj in H. lia.
  - rewrite Hci, Hcj in Hc. rewrite Hci in Hup.
    apply is_upper_code_spec in Hup. lia.
  - rewrite Hci, Hcj in Hc. rewrite Hcj in Hup.
    apply is_upper_code_spec in Hup. lia.
Qed.

Lemma decode_callbackData (idx : nat) (id : string) :
  (idx < 191)%nat ->
  includes ":" id = false ->
  Bot.decode ("answer:" +:+ fromCharCode (65 + Z.of_nat idx) +:+ ":" +:+ id)
  = (Some (fromCharCode (65 + Z.of_nat idx)), Some id).
Proof.
  intros Hidx Hid. unfold Bot.decode.
  change ("answer:" +:+ ?x) with ("answer" +:+ String ":" x).
  rewrite split_segment by reflexivity.
  change (?l +:+ ":" +:+ ?x) with (l +:+ String ":" x).
  rewrite split_segment by now apply label_has_no_colon.
  rewrite split_no_sep by exact Hid.
  reflexivity.
Qed.

End ButtonVerdict.

(** X13.  Delivery and storage agree on the labels.  Take a question with
    at most 32 options, an id without colon and not yet stored, and save it
    with [saveToDb].  The payload of the button [sendToTelegram] makes for
    the option at position idx decodes to a label and an id for which
    [recordAttempt] succeeds, and the attempt is judged correct exactly
    when idx is the position of the first option marked correct; when no
    option is marked correct, no button is judged correct. *)
Theorem button_judged_correct_iff_first_correct_option
    (DATABASE_ID : option string) (saved answered : Z)
    (mcq : FetchDb.McqQuestion) (idx : nat) (db : Db.t)
    (Hid : JsString.includes ":" (FetchDb.id mcq) = false)
    (Hfresh : Db.questions db !! FetchDb.id mcq = None)
    (Hidx : (idx < length (FetchDb.options (FetchDb.parsed mcq)))%nat)
    (Hsmall : (length (FetchDb.options (FetchDb.parsed mcq)) <= 32)%nat) :
  exists (button : FetchDb.Button) (row : QuestionRow.t) (isCorrect : bool)
         (db2 : Db.t),
    FetchDb.inlineKeyboard mcq !! idx = Some [button]
    /\ Bot.recordAttempt_any answered
         (snd (Bot.decode (FetchDb.callbackData button)))
         (fst (Bot.decode (FetchDb.callbackData button)))
         (snd (FetchDb.saveToDb DATABASE_ID saved [mcq] db))
       = (Ok (row, isCorrect), db2)
    /\ (isCorrect = true
        <-> Z.of_nat idx
            = FetchDb.findIndex FetchDb.is_correct
                (FetchDb.options (FetchDb.parsed mcq))).
Proof.
  destruct (FetchDb.options (FetchDb.parsed mcq) !! idx) as [opt|] eqn:Hopt;
    [|apply lookup_ge_None in Hopt; lia].
  eexists _, _, _, _. split.
  { unfold FetchDb.inlineKeyboard. rewrite list_lookup_imap, Hopt.
    reflexivity. }
  cbn [FetchDb.callbackData].
  rewrite decode_callbackData by (lia || exact Hid).
  cbn [fst snd Bot.recordAttempt_any].
  rewrite saveToDb_cons, insertQuestion_fresh by exact Hfresh.
  cbn [FetchDb.saveToDb ret snd].
  set (row := QuestionRow.mk (FetchDb.question_of_mcq DATABASE_ID mcq) saved).
  pose proof (recordAttempt_known answered (FetchDb.id mcq)
                (JsString.fromCharCode (65 + Z.of_nat idx))
                (Db.mk (<[FetchDb.id mcq := row]> (Db.questions db))
                   (Db.attempts db) (Db.attempts_seq db))
                row) as Hrun.
  cbv zeta in Hrun. simpl Db.questions in Hrun.
  specialize (Hrun (lookup_insert_eq _ _ _)).
  split; [exact Hrun|].
  pose proof (findIndex_from_spec FetchDb.is_correct
                (FetchDb.options (FetchDb.parsed mcq)) 0 ltac:(lia)) as Hfound.
  fold (FetchDb.findIndex FetchDb.is_correct
          (FetchDb.options (FetchDb.parsed mcq))) in Hfound.
  assert (-1 <= FetchDb.findIndex FetchDb.is_correct
                  (FetchDb.options (FetchDb.parsed mcq)) < 32)%Z as Hrange.
  { destruct (existsb FetchDb.is_correct
                (FetchDb.options (FetchDb.parsed mcq))); lia. }
  subst row. cbn [QuestionRow.fields FetchDb.question_of_mcq
                    Question.correct_answer FetchDb.correct_answer_code
                    FetchDb.nullish_coalesce FetchDb.fromCharCode_value].
  destruct (String.eqb_spec
              (JsString.toLowerCase
                 (JsString.fromCharCode
                    (65 + FetchDb.findIndex FetchDb.is_correct
                            (FetchDb.options (FetchDb.parsed mcq)))))
              (JsString.toLowerCase
                 (JsString.fromCharCode (65 + Z.of_nat idx))))
    as [Heq|Hne].
  - apply label_verdict in Heq; [|lia|lia]. simpl. split; [lia | reflexivity].
  - simpl. split; [discriminate|]. intros Heq. exfalso. apply Hne.
    now rewrite Heq.
Qed.

Lemma button_judged_correct_iff_first_correct_option_witness :
  JsString.includes ":" (FetchDb.id Examples.mcq_a) = false
  /\ Db.questions Db.empty !! FetchDb.id Examples.mcq_a = None
  /\ (1 < length (FetchDb.options (FetchDb.parsed Examples.mcq_a)))%nat
  /\ (length (FetchDb.options (FetchDb.parsed Examples.mcq_a)) <= 32)%nat
  /\ exists (button : FetchDb.Button) (row : QuestionRow.t)
            (isCorrect : bool) (db2 : Db.t),
       FetchDb.inlineKeyboard Examples.mcq_a !! 1%nat = Some [button]
       /\ Bot.recordAttempt_any 2000
            (snd (Bot.decode (FetchDb.callbackData button)))
            (fst (Bot.decode (FetchDb.callbackData button)))
            (snd (FetchDb.saveToDb None 1000 [Examples.mcq_a] Db.empty))
          = (Ok (row, isCorrect), db2)
       /\ (isCorrect = true
           <-> Z.of_nat 1
               = FetchDb.findIndex FetchDb.is_correct
                   (FetchDb.options (FetchDb.parsed Examples.mcq_a))).
Proof.
  split; [reflexivity|]. split; [reflexivity|].
  split; [simpl; lia|]. split; [simpl; lia|].
  apply (button_judged_correct_iff_first_correct_option
           None 1000 2000 Examples.mcq_a 1 Db.empty);
    [reflexivity | reflexivity | simpl; lia | simpl; lia].
Defined.

(* ===================================================================== *)
(** ** What the webhook does to the store and on the network *)
(* ===================================================================== *)

Section WebhookEffect.

Import Bot.

Lemma recordAttempt_any_effect now questionId answer db :
  Db.questions (snd (recordAttempt_any now questionId answer db))
  = Db.questions db
  /\ (Db.attempts (snd (recordAttempt_any now questionId answer db))
      = Db.attempts db
      \/ exists a,
           Db.attempts (snd (recordAttempt_any now questionId answer db))
           = Db.attempts db ++ [a]
           /\ is_Some (Db.questions db !! QuestionAttempt.question_id a)
           /\ Some (QuestionAttempt.selected_answer a) = answer).
Proof.
  destruct questionId as [qid|]; [|simpl; auto].
  destruct answer as [a|]; simpl.
  - destruct (Db.questions db !! qid) as [row|] eqn:Hq.
    + pose proof (recordAttempt_known now qid a db row Hq) as H.
      cbv zeta in H. rewrite H. simpl. split; [reflexivity|]. right.
      eexists. split; [reflexivity|]. simpl. rewrite Hq. eauto.
    + rewrite recordAttempt_unknown by exact Hq. simpl. auto.
  - unfold bind. rewrite getQuestion_run.
    destruct (Db.questions db !! qid); simpl; auto.
Qed.

(** [handleAnswer] changes the database by its call of [recordAttempt]
    and by nothing else. *)
Lemma handleAnswer_file env answer questionId callback w :
  file (snd (handleAnswer env answer questionId callback w))
  = if database_opens env
    then snd (recordAttempt_any (now env) questionId answer (file w))
    else file w.
Proof.
  unfold handleAnswer, new_Db.
  destruct (database_opens env); [|reflexivity].
  unfold bind at 1. unfold on_db at 1, Db.init, ret at 1.
  cbv beta iota. unfold try_catch. unfold bind at 1. unfold on_db at 1.
  cbn [file console requests].
  destruct (recordAttempt_any (now env) questionId answer (file w))
    as [[[qn isCorrect]|e] db1].
  - destruct isCorrect.
    + unfold bind at 1, bind at 1, on_db, Streak.getCurrentStreak, bind, get,
        ret.
      cbv beta iota.
      match goal with
      | |- context [sendTelegramMessage env ?t ?w0] =>
          destruct (sendTelegramMessage_run env t w0)
            as (w' & Hsend & Hfile & _)
      end.
      rewrite Hsend. simpl. exact Hfile.
    + unfold bind at 1, ret at 1.
      match goal with
      | |- context [sendTelegramMessage env ?t ?w0] =>
          destruct (sendTelegramMessage_run env t w0)
            as (w' & Hsend & Hfile & _)
      end.
      rewrite Hsend. simpl. exact Hfile.
  - unfold bind at 1. rewrite console_error_run.
    match goal with
    | |- context [sendTelegramMessage env ?t ?w0] =>
        destruct (sendTelegramMessage_run env t w0)
          as (w' & Hsend & Hfile & _)
    end.
    rewrite Hsend. simpl. exact Hfile.
Qed.

(** The database after the webhook is the database before it, or the one
    [recordAttempt] leaves for the decoded payload. *)
Lemma webhook_file env body w :
  exists w',
    snd (webhook env body w) = w'
    /\ (file w' = file w
        \/ exists callback d,
             body = Some callback /\ data callback = Some d
             /\ file w'
                = snd (recordAttempt_any (now env) (snd (decode d))
                         (fst (decode d)) (file w))).
Proof.
  destruct body as [callback|];
    [|eexists; split; [reflexivity|]; now left].
  unfold webhook, destructure.
  destruct (data callback) as [d|] eqn:Hdata;
    [|eexists; split; [reflexivity|]; now left].
  unfold bind at 1, ret at 1.
  destruct (decode d) as [answer questionId] eqn:Hdecode.
  unfold bind at 1, answerCallbackQuery, fetch at 1.
  destruct (fetch_resolves env (AnswerCallbackQuery (id callback)));
    [|eexists; split; [reflexivity|]; now left].
  unfold bind at 1, removeInlineKeyboard.
  destruct (message callback) as [m|];
    [|eexists; split; [reflexivity|]; now left].
  unfold fetch at 1.
  destruct (fetch_resolves env _);
    [|eexists; split; [reflexivity|]; now left].
  unfold bind at 1.
  match goal with
  | |- context [handleAnswer env answer questionId callback ?w0] =>
      pose proof (handleAnswer_file env answer questionId callback w0) as Hfile;
      destruct (handleAnswer env answer questionId callback w0) as [[[]|e] w1]
  end; (eexists; split; [reflexivity|]);
    unfold ret; cbn [fst snd file] in Hfile |- *;
    (destruct (database_opens env);
     [right; exists callback, d; rewrite Hfile, Hdecode; auto
     |left; rewrite Hfile; reflexivity]).
Qed.

End WebhookEffect.

(** X14.  Whatever the request and whatever the environment does, the
    webhook never changes the [questions] table, and to the [attempts]
    table it does nothing or appends one row; that row is for the id of a
    stored question and holds the second segment of the payload as the
    selected answer. *)
Theorem webhook_appends_at_most_one_attempt
    (env : Bot.Env) (body : option Bot.CallbackQuery) (w : Bot.World) :
  let db := Bot.file w in
  let db' := Bot.file (snd (Bot.webhook env body w)) in
  Db.questions db' = Db.questions db
  /\ (Db.attempts db' = Db.attempts db
      \/ exists (a : QuestionAttempt.t) (callback : Bot.CallbackQuery)
                (d : string),
           Db.attempts db' = Db.attempts db ++ [a]
           /\ is_Some (Db.questions db !! QuestionAttempt.question_id a)
           /\ body = Some callback
           /\ Bot.data callback = Some d
           /\ JsString.split ":" d !! 1%nat
              = Some (QuestionAttempt.selected_answer a)
           /\ JsString.split ":" d !! 2%nat
              = Some (QuestionAttempt.question_id a)).
Proof.
  cbv zeta.
  destruct (webhook_file env body w)
    as (w' & -> & [-> | (callback & d & -> & Hdata & ->)]); [auto|].
  pose proof (recordAttempt_any_effect (Bot.now env) (snd (Bot.decode d))
                (fst (Bot.decode d)) (Bot.file w)) as [Hq Ha].
  split; [exact Hq|].
  destruct Ha as [Ha | (a & Ha & Hstored & Hanswer)]; [now left|].
  right. exists a, callback, d.
  split; [exact Ha|]. split; [exact Hstored|]. split; [reflexivity|].
  split; [exact Hdata|]. split; [now rewrite Hanswer|].
  unfold Bot.decode in *. simpl in *.
  destruct (JsString.split ":" d !! 2%nat) as [qid|] eqn:Hqid;
    [|simpl in Ha; apply (f_equal length) in Ha;
      rewrite length_app in Ha; simpl in Ha; lia].
  rewrite <- Hanswer in Ha. simpl in Ha. f_equal.
  destruct (Db.questions (Bot.file w) !! qid) as [row|] eqn:Hrow.
  - pose proof (recordAttempt_known (Bot.now env) qid
                  (QuestionAttempt.selected_answer a) (Bot.file w) row Hrow)
      as Hrun.
    cbv zeta in Hrun. rewrite Hrun in Ha. simpl in Ha.
    apply app_inj_tail in Ha as [_ <-]. reflexivity.
  - rewrite recordAttempt_unknown in Ha by exact Hrow. simpl in Ha.
    apply (f_equal length) in Ha. rewrite length_app in Ha. simpl in Ha. lia.
Qed.

Section WebhookReply.

Import Bot.

Lemma sendTelegramMessage_configured env text w :
  JsString.truthy (BOT_TOKEN env) = true ->
  JsString.truthy (CHAT_ID env) = true ->
  exists w',
    sendTelegramMessage env text w = (Ok tt, w')
    /\ file w' = file w
    /\ requests w' = requests w ++ [SendMessage (CHAT_ID env) text]
    /\ (forall line, In line (console w) -> In line (console w')).
Proof.
  intros Htoken Hchat. unfold sendTelegramMessage.
  rewrite Htoken, Hchat. simpl. unfold try_catch, fetch.
  destruct (fetch_resolves env (SendMessage (CHAT_ID env) text)).
  - eexists. split; [reflexivity|]. simpl. auto.
  - eexists. split; [apply console_error_run|]. simpl.
    repeat split; auto using in_or_app.
Qed.

Lemma handleAnswer_unknown env answer questionId callback w :
  database_opens env = true ->
  JsString.truthy (BOT_TOKEN env) = true ->
  JsString.truthy (CHAT_ID env) = true ->
  Db.questions (file w) !! questionId = None ->
  exists w',
    handleAnswer env (Some answer) (Some questionId) callback w = (Ok tt, w')
    /\ file w' = file w
    /\ requests w' = requests w ++ [SendMessage (CHAT_ID env) ErrorReply]
    /\ In ("Error recording attempt:", Some (JsError "Question not found"))
          (console w').
Proof.
  intros Hopen Htoken Hchat Hq. unfold handleAnswer, new_Db. rewrite Hopen.
  unfold bind at 1. unfold on_db at 1, Db.init, ret at 1.
  cbv beta iota. unfold try_catch. unfold bind at 1. unfold on_db at 1.
  cbn [file console requests recordAttempt_any].
  rewrite recordAttempt_unknown by exact Hq.
  unfold bind at 1. rewrite console_error_run.
  match goal with
  | |- context [sendTelegramMessage env ErrorReply ?w0] =>
      destruct (sendTelegramMessage_configured env ErrorReply w0 Htoken Hchat)
        as (w' & Hsend & Hfile & Hrequests & Hconsole)
  end.
  exists w'. split; [exact Hsend|]. split; [now rewrite Hfile|].
  split; [exact Hrequests|].
  apply Hconsole. simpl. apply in_or_app. right. now left.
Qed.

Lemma handleAnswer_known env answer questionId callback w row :
  database_opens env = true ->
  JsString.truthy (BOT_TOKEN env) = true ->
  JsString.truthy (CHAT_ID env) = true ->
  Db.questions (file w) !! questionId = Some row ->
  exists reply w',
    handleAnswer env (Some answer) (Some questionId) callback w = (Ok tt, w')
    /\ file w'
       = Db.mk (Db.questions (file w))
           (Db.attempts (file w) ++
              [QuestionAttempt.mk (Db.attempts_seq (file w) + 1) questionId
                 answer (History.verdict row answer) (now env)])
           (Db.attempts_seq (file w) + 1)
    /\ requests w' = requests w ++ [SendMessage (CHAT_ID env) reply]
    /\ (if (History.verdict row answer =? 1)%Z
        then exists currentStreak, reply = CorrectReply currentStreak
        else reply
             = IncorrectReply (Question.question (QuestionRow.fields row))
                 (Some answer)
                 (Question.correct_answer (QuestionRow.fields row))
                 (Question.explanation (QuestionRow.fields row))).
Proof.
  intros Hopen Htoken Hchat Hq. unfold handleAnswer, new_Db. rewrite Hopen.
  unfold bind at 1. unfold on_db at 1, Db.init, ret at 1.
  cbv beta iota. unfold try_catch. unfold bind at 1. unfold on_db at 1.
  cbn [file console requests recordAttempt_any].
  pose proof (recordAttempt_known (now env) questionId answer (file w) row Hq)
    as Hrun.
  cbv zeta in Hrun. rewrite Hrun. fold (History.verdict row answer).
  unfold History.verdict.
  destruct (String.eqb _ _); cbn [Db.Boolean Z.eqb negb].
  - unfold bind at 1, bind at 1, on_db, Streak.getCurrentStreak, bind, get,
      ret.
    cbv beta iota.
    match goal with
    | |- context [sendTelegramMessage env ?t ?w0] =>
        destruct (sendTelegramMessage_configured env t w0 Htoken Hchat)
          as (w' & Hsend & Hfile & Hrequests & _)
    end.
    eexists _, w'. split; [rewrite Hsend; reflexivity|].
    split; [exact Hfile|]. split; [exact Hrequests|].
    change (1 =? 1)%positive with true. cbv iota. eauto.
  - unfold bind at 1, ret at 1.
    match goal with
    | |- context [sendTelegramMessage env ?t ?w0] =>
        destruct (sendTelegramMessage_configured env t w0 Htoken Hchat)
          as (w' & Hsend & Hfile & Hrequests & _)
    end.
    eexists _, w'. split; [rewrite Hsend; reflexivity|].
    split; [exact Hfile|]. split; [exact Hrequests|]. reflexivity.
Qed.

Lemma webhook_reaches_handleAnswer env callback d m answer questionId w :
  data callback = Some d ->
  decode d = (answer, questionId) ->
  message callback = Some m ->
  (forall r, (match r with SendMessage _ _ => False | _ => True end) ->
             fetch_resolves env r = true) ->
  webhook env (Some callback) w
  = (handleAnswer env answer questionId callback ;;; ret 200%Z)%js
      {| file := file w; console := console w;
         requests :=
           requests w
           ++ [AnswerCallbackQuery (id callback);
               EditMessageText (chat_id m) (message_id m)
                 (JsString.interpolate (message_text m)
                  +:+ FetchDb.newline +:+ FetchDb.newline
                  +:+ "*You selected:*" +:+ FetchDb.newline
                  +:+ JsString.interpolate answer)] |}.
Proof.
  intros Hdata Hdecode Hmessage Hfetch.
  unfold webhook, destructure. rewrite Hdata.
  unfold bind at 1, ret at 1. rewrite Hdecode.
  unfold bind at 1, answerCallbackQuery, fetch at 1.
  rewrite (Hfetch (AnswerCallbackQuery (id callback)) I).
  unfold bind at 1, removeInlineKeyboard. rewrite Hmessage.
  unfold fetch at 1. rewrite (Hfetch (EditMessageText _ _ _) I).
  cbn [file console requests]. now rewrite <- app_assoc.
Qed.

End WebhookReply.

(** X15.  The webhook on a payload with a label and a question id, when
    the bot is configured, the acknowledgment and the edit go through and
    the database opens.  It answers 200 and has asked Telegram, in this
    order, to acknowledge the callback, to edit the message so that it
    shows the selected label, and to send one reply.  For an id that is not
    stored the reply is the failure notice, the database is unchanged and
    "Question not found" is logged.  For a stored id one attempt is
    appended, with the next rowid, the id, the label as selected, the
    verdict and the time; the reply is the congratulation when the verdict
    is 1 and otherwise the correction with the stored question, the
    selected label, the stored correct answer and the explanation. *)
Theorem webhook_acknowledges_edits_records_replies
    (env : Bot.Env) (callback : Bot.CallbackQuery) (d : string)
    (m : Bot.Message) (answer questionId : string) (w : Bot.World)
    (Hdata : Bot.data callback = Some d)
    (Hdecode : Bot.decode d = (Some answer, Some questionId))
    (Hmessage : Bot.message callback = Some m)
    (Hfetch :
       forall r,
         (match r with Bot.SendMessage _ _ => False | _ => True end) ->
         Bot.fetch_resolves env r = true)
    (Hopen : Bot.database_opens env = true)
    (Htoken : JsString.truthy (Bot.BOT_TOKEN env) = true)
    (Hchat : JsString.truthy (Bot.CHAT_ID env) = true) :
  let outcome := Bot.webhook env (Some callback) w in
  let db := Bot.file w in
  let asked reply :=
    Bot.requests w
    ++ [Bot.AnswerCallbackQuery (Bot.id callback);
        Bot.EditMessageText (Bot.chat_id m) (Bot.message_id m)
          (JsString.interpolate (Bot.message_text m)
           +:+ FetchDb.newline +:+ FetchDb.newline
           +:+ "*You selected:*" +:+ FetchDb.newline +:+ answer);
        Bot.SendMessage (Bot.CHAT_ID env) reply] in
  fst outcome = Ok 200%Z
  /\ match Db.questions db !! questionId with
     | None =>
         Bot.file (snd outcome) = db
         /\ Bot.requests (snd outcome) = asked Bot.ErrorReply
         /\ In ("Error recording attempt:",
                Some (JsError "Question not found"))
               (Bot.console (snd outcome))
     | Some row =>
         Bot.file (snd outcome)
         = Db.mk (Db.questions db)
             (Db.attempts db ++
                [QuestionAttempt.mk (Db.attempts_seq db + 1) questionId
                   answer (History.verdict row answer) (Bot.now env)])
             (Db.attempts_seq db + 1)
         /\ exists reply,
              Bot.requests (snd outcome) = asked reply
              /\ (if (History.verdict row answer =? 1)%Z
                  then exists currentStreak,
                         reply = Bot.CorrectReply currentStreak
                  else reply
                       = Bot.IncorrectReply
                           (Question.question (QuestionRow.fields row))
                           (Some answer)
                           (Question.correct_answer (QuestionRow.fields row))
                           (Question.explanation (QuestionRow.fields row)))
     end.
Proof.
  cbv zeta.
  rewrite (webhook_reaches_handleAnswer env callback d m (Some answer)
             (Some questionId) w Hdata Hdecode Hmessage Hfetch).
  unfold bind.
  destruct (Db.questions (Bot.file w) !! questionId) as [row|] eqn:Hq.
  - match goal with
    | |- context [Bot.handleAnswer env _ _ callback ?w0] =>
        destruct (handleAnswer_known env answer questionId callback w0 row
                    Hopen Htoken Hchat Hq)
          as (reply & w' & Hrun & Hfile & Hrequests & Hreply)
    end.
    rewrite Hrun. unfold ret. cbn [fst snd]. split; [reflexivity|].
    split; [exact Hfile|]. exists reply. split; [|exact Hreply].
    rewrite Hrequests. cbn [Bot.requests JsString.interpolate].
    now rewrite <- app_assoc.
  - match goal with
    | |- context [Bot.handleAnswer env _ _ callback ?w0] =>
        destruct (handleAnswer_unknown env answer questionId callback w0
                    Hopen Htoken Hchat Hq)
          as (w' & Hrun & Hfile & Hrequests & Hlog)
    end.
    rewrite Hrun. unfold ret. cbn [fst snd]. split; [reflexivity|].
    split; [exact Hfile|]. split; [|exact Hlog].
    rewrite Hrequests. cbn [Bot.requests JsString.interpolate].
    now rewrite <- app_assoc.
Qed.

Lemma webhook_acknowledges_edits_records_replies_witness :
  Bot.data (Examples.callback_with (Some "answer:C:Q1")) = Some "answer:C:Q1"
  /\ Bot.decode "answer:C:Q1" = (Some "C", Some "Q1")
  /\ Bot.message (Examples.callback_with (Some "answer:C:Q1"))
     = Some Examples.message1
  /\ (forall r,
        (match r with Bot.SendMessage _ _ => False | _ => True end) ->
        Bot.fetch_resolves Examples.env_ok r = true)
  /\ Bot.database_opens Examples.env_ok = true
  /\ JsString.truthy (Bot.BOT_TOKEN Examples.env_ok) = true
  /\ JsString.truthy (Bot.CHAT_ID Examples.env_ok) = true
  /\ fst (Bot.webhook Examples.env_ok
            (Some (Examples.callback_with (Some "answer:C:Q1")))
            Examples.world1)
     = Ok 200%Z.
Proof.
  assert (forall r,
            (match r with Bot.SendMessage _ _ => False | _ => True end) ->
            Bot.fetch_resolves Examples.env_ok r = true) as Hfetch
    by (intros r _; reflexivity).
  repeat (split; [reflexivity || exact Hfetch|]).
  exact (proj1 (webhook_acknowledges_edits_records_replies
                  Examples.env_ok (Examples.callback_with (Some "answer:C:Q1"))
                  "answer:C:Q1" Examples.message1 "C" "Q1" Examples.world1
                  eq_refl eq_refl eq_refl Hfetch eq_refl eq_refl eq_refl)).
Defined.

Lemma webhook_responds_when_calls_complete_witness :
  Bot.data (Examples.callback_with (Some "answer:B:Q9")) = Some "answer:B:Q9"
  /\ Bot.message (Examples.callback_with (Some "answer:B:Q9"))
     = Some Examples.message1
  /\ (forall r,
        (match r with Bot.SendMessage _ _ => False | _ => True end) ->
        Bot.fetch_resolves Examples.env_ok r = true)
  /\ Bot.database_opens Examples.env_ok = true
  /\ fst (Bot.webhook Examples.env_ok
            (Some (Examples.callback_with (Some "answer:B:Q9")))
            Examples.world1)
     = Ok 200%Z.
Proof.
  assert (forall r,
            (match r with Bot.SendMessage _ _ => False | _ => True end) ->
            Bot.fetch_resolves Examples.env_ok r = true) as Hfetch
    by (intros r _; reflexivity).
  split; [reflexivity|]. split; [reflexivity|]. split; [exact Hfetch|].
  split; [reflexivity|].
  exact (webhook_responds_when_calls_complete
           Examples.env_ok (Examples.callback_with (Some "answer:B:Q9"))
           "answer:B:Q9" Examples.message1 Examples.world1
           eq_refl eq_refl Hfetch eq_refl).
Defined.

(* ===================================================================== *)
(** ** From synthesis to the store *)
(* ===================================================================== *)

(** X17.  A batch that [generateMcqs] returns can be saved as a whole:
    when the id generator never repeats itself and none of its ids is in
    the store, [saveToDb] stores every MCQ of the batch, and each is then
    fetched by its id with its question, its description, its explanation
    and, as correct answer, the character of code 65 plus the position of
    its first option marked correct. *)
Theorem generated_batch_is_stored
    (sv : FetchDb.Services) (questions : list FetchDb.LeetcodeQuestion)
    (c c' : FetchDb.Calls) (mcqs : list FetchDb.McqQuestion)
    (DATABASE_ID : option string) (now : Z) (db : Db.t)
    (Hrun : FetchDb.generateMcqs sv questions c = (Ok mcqs, c'))
    (Hinj : Inj (=) (=) (FetchDb.nanoid sv))
    (Hfresh : forall k, Db.questions db !! FetchDb.nanoid sv k = None) :
  exists db' : Db.t,
    FetchDb.saveToDb DATABASE_ID now mcqs db = (Ok tt, db')
    /\ Db.attempts db' = Db.attempts db
    /\ forall mcq,
         mcq ∈ mcqs ->
         exists row,
           fst (Db.getQuestion (FetchDb.id mcq) db') = Ok (Some row)
           /\ Question.id (QuestionRow.fields row) = FetchDb.id mcq
           /\ Question.question (QuestionRow.fields row)
              = FetchDb.question (FetchDb.parsed mcq)
           /\ Question.leetcode_question (QuestionRow.fields row)
              = FetchDb.leetcode_description (FetchDb.parsed mcq)
           /\ Question.explanation (QuestionRow.fields row)
              = FetchDb.explanation (FetchDb.parsed mcq)
           /\ Question.correct_answer (QuestionRow.fields row)
              = JsString.fromCharCode
                  (65 + FetchDb.findIndex FetchDb.is_correct
                          (FetchDb.options (FetchDb.parsed mcq)))
           /\ QuestionRow.created_at row = now.
Proof.
  apply generateMcqs_loop_spec in Hrun as (outputs & new & _ & -> & _ & Hids).
  simpl app.
  assert (NoDup (map FetchDb.id new)) as Hdistinct
    by (rewrite Hids; apply (NoDup_fmap_2 _), NoDup_seq).
  assert (forall mcq, mcq ∈ new ->
                      Db.questions db !! FetchDb.id mcq = None) as Hnew.
  { intros mcq Hm.
    assert (FetchDb.id mcq ∈ map FetchDb.id new) as Hin
      by now apply list_elem_of_fmap_2.
    rewrite Hids in Hin. apply list_elem_of_fmap in Hin as (k & -> & _).
    apply Hfresh. }
  destruct (saveToDb_fresh DATABASE_ID now new db Hdistinct Hnew)
    as (db' & Hsave & Hatt & _ & Hrows & _).
  exists db'. split; [exact Hsave|]. split; [exact Hatt|].
  intros mcq Hm. eexists. rewrite getQuestion_run. simpl.
  rewrite (Hrows mcq Hm). split; [reflexivity|]. simpl. repeat split.
Qed.

Lemma generated_batch_is_stored_witness :
  FetchDb.generateMcqs Examples.services_counting [Examples.two_sum]
    Examples.no_calls
  = (Ok [Examples.mk_mcq_with_id "id-"
           (FetchDb.options (FetchDb.parsed Examples.mcq_a))],
     {| FetchDb.parse_calls := 1; FetchDb.nanoid_calls := 1 |})
  /\ Inj (=) (=) (FetchDb.nanoid Examples.services_counting)
  /\ (forall k,
        Db.questions Examples.db1
        !! FetchDb.nanoid Examples.services_counting k = None)
  /\ exists db' : Db.t,
       FetchDb.saveToDb None 1000
         [Examples.mk_mcq_with_id "id-"
            (FetchDb.options (FetchDb.parsed Examples.mcq_a))]
         Examples.db1
       = (Ok tt, db')
       /\ Db.attempts db' = Db.attempts Examples.db1.
Proof.
  assert (Inj (=) (=) (FetchDb.nanoid Examples.services_counting)) as Hinj.
  { intros i j H. simpl in H. unfold Examples.tally in H.
    simpl in H. injection H as H. revert j H.
    induction i as [|i IH]; intros [|j] H; simpl in H;
      try discriminate; [reflexivity|].
    injection H as H. f_equal. now apply IH. }
  assert (forall k,
            Db.questions Examples.db1
            !! FetchDb.nanoid Examples.services_counting k = None) as Hfresh.
  { intros k. simpl. apply lookup_singleton_ne. unfold Examples.tally.
    discriminate. }
  split; [reflexivity|]. split; [exact Hinj|]. split; [exact Hfresh|].
  destruct (generated_batch_is_stored Examples.services_counting
              [Examples.two_sum] Examples.no_calls
              {| FetchDb.parse_calls := 1; FetchDb.nanoid_calls := 1 |}
              [Examples.mk_mcq_with_id "id-"
                 (FetchDb.options (FetchDb.parsed Examples.mcq_a))]
              None 1000 Examples.db1 eq_refl Hinj Hfresh)
    as (db' & Hsave & Hatt & _).
  exists db'. split; [exact Hsave | exact Hatt].
Defined.
